(** * MAX17048 fuel-gauge driver (hackberrypi-max17048.c): model and properties

    The driver is embedded shallowly.  C integers are [Z] with the
    conversions of the C types written out; the driver functions run in a
    small state monad whose state holds the driver data ([struct max17048]),
    the caller's [val->intval] cell and a ghost log of the register reads
    issued on the bus.  A computation that would divide by zero yields
    [None]. *)

From Stdlib Require Import ZArith Lia List Bool String.
Import ListNotations.

Local Open Scope Z_scope.

(** ** C integer conversions *)

Module CInt.

Definition to_unsigned (bits z : Z) : Z := z mod 2 ^ bits.

Definition to_signed (bits z : Z) : Z :=
  (z + 2 ^ (bits - 1)) mod 2 ^ bits - 2 ^ (bits - 1).

Definition u32 : Z -> Z := to_unsigned 32.
Definition u64 : Z -> Z := to_unsigned 64.
Definition s16 : Z -> Z := to_signed 16.
Definition s32 : Z -> Z := to_signed 32.
Definition s64 : Z -> Z := to_signed 64.

Definition INT_MIN : Z := - 2 ^ 31.
Definition INT_MAX : Z := 2 ^ 31 - 1.

End CInt.
Import CInt.

(** ** Kernel constants used by the driver *)

Definition EIO : Z := 5.
Definition ENOMEM : Z := 12.
Definition EINVAL : Z := 22.
Definition ENODATA : Z := 61.

Definition POWER_SUPPLY_STATUS_UNKNOWN : Z := 0.
Definition POWER_SUPPLY_STATUS_CHARGING : Z := 1.
Definition POWER_SUPPLY_STATUS_DISCHARGING : Z := 2.
Definition POWER_SUPPLY_STATUS_NOT_CHARGING : Z := 3.
Definition POWER_SUPPLY_STATUS_FULL : Z := 4.

Definition POWER_SUPPLY_TECHNOLOGY_LIPO : Z := 3.

(** The selectors of [enum power_supply_property]: the ten the driver
    serves, and [POWER_SUPPLY_PROP_OTHER] for every other enumerator. *)
Inductive power_supply_property : Type :=
| POWER_SUPPLY_PROP_STATUS
| POWER_SUPPLY_PROP_VOLTAGE_NOW
| POWER_SUPPLY_PROP_CAPACITY
| POWER_SUPPLY_PROP_CHARGE_FULL_DESIGN
| POWER_SUPPLY_PROP_CHARGE_NOW
| POWER_SUPPLY_PROP_ENERGY_FULL_DESIGN
| POWER_SUPPLY_PROP_TECHNOLOGY
| POWER_SUPPLY_PROP_CURRENT_NOW
| POWER_SUPPLY_PROP_TIME_TO_EMPTY_NOW
| POWER_SUPPLY_PROP_TIME_TO_FULL_NOW
| POWER_SUPPLY_PROP_OTHER (n : nat).

Definition max17048_battery_props : list power_supply_property :=
  [ POWER_SUPPLY_PROP_STATUS;
    POWER_SUPPLY_PROP_VOLTAGE_NOW;
    POWER_SUPPLY_PROP_CAPACITY;
    POWER_SUPPLY_PROP_CHARGE_FULL_DESIGN;
    POWER_SUPPLY_PROP_CHARGE_NOW;
    POWER_SUPPLY_PROP_ENERGY_FULL_DESIGN;
    POWER_SUPPLY_PROP_TECHNOLOGY;
    POWER_SUPPLY_PROP_CURRENT_NOW;
    POWER_SUPPLY_PROP_TIME_TO_EMPTY_NOW;
    POWER_SUPPLY_PROP_TIME_TO_FULL_NOW ].

(** ** Registers and driver data *)

Definition MAX17048_VCELL_REG : Z := 0x02.
Definition MAX17048_SOC_REG : Z := 0x04.
Definition MAX17048_CRATE_REG : Z := 0x16.

(** The answer of the bus to one register read: the return code of
    [regmap_read] (0, or a negative errno) and the 16-bit register word. *)
Definition reading : Type := (Z * Z)%type.

(** [struct max17048].  The [regmap] handle is modelled by the snapshot of
    the sensor it gives access to: what a read of each register answers
    during the query. *)
Record max17048 : Type := {
  regmap : Z -> reading;
  charge_full_design_uah : Z;
  energy_full_design_uwh : Z
}.

(** What a query runs on: the driver data behind [power_supply_get_drvdata],
    the caller's [val->intval], and the log of the register reads issued so
    far, each with its return code. *)
Record state : Type := {
  drvdata : max17048;
  intval : Z;
  io_log : list (Z * Z)
}.

(** ** The monad of driver code

    State passing over a store [S]; [None] is a division by zero. *)

Definition M (S A : Type) : Type := S -> option (A * S).

Definition Ret {S A : Type} (a : A) : M S A := fun s => Some (a, s).

Definition Bind {S A B : Type} (m : M S A) (k : A -> M S B) : M S B :=
  fun s => match m s with
           | Some (a, s') => k a s'
           | None => None
           end.

Definition Trap {S A : Type} : M S A := fun _ => None.

Definition Get {S : Type} : M S S := fun s => Some (s, s).

Notation "x <- m ;; k" := (Bind m (fun x => k))
  (at level 61, m at next level, right associativity).
Notation "' pat <- m ;; k" := (Bind m (fun x => match x with pat => k end))
  (at level 61, pat pattern, m at next level, right associativity).
Notation "m ;;; k" := (Bind m (fun _ => k))
  (at level 61, right associativity).

Definition with_intval (v : Z) (s : state) : state :=
  {| drvdata := drvdata s; intval := v; io_log := io_log s |}.

Definition logged (reg ret : Z) (s : state) : state :=
  {| drvdata := drvdata s; intval := intval s;
     io_log := io_log s ++ [(reg, ret)] |}.

Definition get_battery : M state max17048 := fun s => Some (drvdata s, s).

Definition set_intval (v : Z) : M state unit :=
  fun s => Some (tt, with_intval v s).

Definition log_read (reg ret : Z) : M state unit :=
  fun s => Some (tt, logged reg ret s).

(** [regmap_read(map, reg, &out)]: [out] is written on success only. *)
Definition regmap_read (reg out : Z) : M state (Z * Z) :=
  battery <- get_battery ;;
  let '(ret, word) := regmap battery reg in
  log_read reg ret ;;;
  if ret =? 0 then Ret (0, u32 word) else Ret (ret, out).

(** [div_s64(s64 dividend, s32 divisor)] and [div_u64(u64 dividend, u32
    divisor)] of linux/math64.h, and the C operator [/] on [u32]. *)
Definition div_s64 {S : Type} (dividend divisor : Z) : M S Z :=
  let d := s32 divisor in
  if d =? 0 then Trap else Ret (s64 (Z.quot (s64 dividend) d)).

Definition div_u64 {S : Type} (dividend divisor : Z) : M S Z :=
  let d := u32 divisor in
  if d =? 0 then Trap else Ret (u64 dividend / d).

Definition div_u32 {S : Type} (a b : Z) : M S Z :=
  if u32 b =? 0 then Trap else Ret (u32 a / u32 b).

(** ** The driver's query functions *)

Definition max17048_get_vcell : M state Z :=
  '(ret, vcell) <- regmap_read MAX17048_VCELL_REG 0 ;;
  if negb (ret =? 0) then Ret ret
  else
    (* 78.125uV per LSB -> vcell * 78.125 = vcell * 625 / 8 *)
    q <- div_u32 (u32 (vcell * 625)) 8 ;;
    Ret (s32 q).

Definition max17048_get_soc : M state Z :=
  '(ret, soc) <- regmap_read MAX17048_SOC_REG 0 ;;
  if negb (ret =? 0) then Ret ret
  else
    soc <- div_u32 soc 256 ;;
    let soc := if soc <? 0 then 0 else soc in
    let soc := if soc >? 100 then 100 else soc in
    Ret (s32 soc).

(** The out-parameter [crate] is returned next to the return code.  The
    callers' local is uninitialised; they pass 0 here and never read it when
    the read fails. *)
Definition max17048_get_crate (crate : Z) : M state (Z * Z) :=
  '(ret, crate_raw) <- regmap_read MAX17048_CRATE_REG 0 ;;
  if negb (ret =? 0) then Ret (ret, crate)
  else Ret (0, s16 crate_raw).

Definition max17048_get_status : M state Z :=
  '(ret, crate) <- max17048_get_crate 0 ;;
  if negb (ret =? 0) then Ret POWER_SUPPLY_STATUS_UNKNOWN
  else if crate >? 4 then Ret POWER_SUPPLY_STATUS_CHARGING
  else if crate <? -4 then Ret POWER_SUPPLY_STATUS_DISCHARGING
  else
    soc <- max17048_get_soc ;;
    if soc >=? 95 then Ret POWER_SUPPLY_STATUS_FULL
    else Ret POWER_SUPPLY_STATUS_NOT_CHARGING.

Definition max17048_get_current : M state Z :=
  '(ret, crate) <- max17048_get_crate 0 ;;
  if negb (ret =? 0) then Ret ret
  else
    battery <- get_battery ;;
    q <- div_s64 (s64 (s64 (s64 (charge_full_design_uah battery) * crate) * 52))
                 25000 ;;
    set_intval (s32 q) ;;;
    Ret 0.

(** Lines 156-170 of [max17048_get_time_to_empty]: the discharge rate after
    the minimum-load floor, or the code returned from inside the block. *)
Definition time_to_empty_discharge_rate (crate : Z) : M state (Z + Z) :=
  let discharge_rate := s32 (Z.abs crate) in
  battery <- get_battery ;;
  if charge_full_design_uah battery >? 0 then
    q <- div_u32 144230769 (charge_full_design_uah battery) ;;
    let min_discharge_rate := s32 q in
    if discharge_rate <? min_discharge_rate
    then Ret (inr min_discharge_rate)
    else Ret (inr discharge_rate)
  else
    if discharge_rate =? 0 then Ret (inl (- ENODATA))
    else Ret (inr discharge_rate).

Definition max17048_get_time_to_empty : M state Z :=
  '(ret, crate) <- max17048_get_crate 0 ;;
  if negb (ret =? 0) then Ret ret
  else if crate >=? -10 then Ret (- ENODATA)
  else
    soc <- max17048_get_soc ;;
    if soc <? 0 then Ret soc
    else
      r <- time_to_empty_discharge_rate crate ;;
      match r with
      | inl code => Ret code
      | inr discharge_rate =>
          if discharge_rate <=? 0 then Ret (- ENODATA)
          else
            q <- div_s64 (s64 (225000 * soc)) (s64 (discharge_rate * 13)) ;;
            set_intval (s32 q) ;;;
            Ret 0
      end.

Definition max17048_get_time_to_full : M state Z :=
  '(ret, crate) <- max17048_get_crate 0 ;;
  if negb (ret =? 0) then Ret ret
  else if crate <=? 10 then Ret (- ENODATA)
  else
    soc <- max17048_get_soc ;;
    if soc <? 0 then Ret soc
    else if crate =? 0 then Ret (- ENODATA)
    else
      q <- div_s64 (s64 (225000 * s32 (100 - soc))) (s64 (crate * 13)) ;;
      set_intval (s32 q) ;;;
      Ret 0.

Definition max17048_get_property (psp : power_supply_property) : M state Z :=
  match psp with
  | POWER_SUPPLY_PROP_STATUS =>
      v <- max17048_get_status ;;
      set_intval v ;;;
      Ret 0
  | POWER_SUPPLY_PROP_VOLTAGE_NOW =>
      ret <- max17048_get_vcell ;;
      if ret <? 0 then Ret ret
      else set_intval ret ;;; Ret 0
  | POWER_SUPPLY_PROP_CAPACITY =>
      ret <- max17048_get_soc ;;
      if ret <? 0 then Ret ret
      else set_intval ret ;;; Ret 0
  | POWER_SUPPLY_PROP_CHARGE_NOW =>
      ret <- max17048_get_soc ;;
      if ret <? 0 then Ret ret
      else
        battery <- get_battery ;;
        (* uAh = (soc * charge_design_uah) / 100 *)
        q <- div_s64 (s64 (ret * charge_full_design_uah battery)) 100 ;;
        set_intval (s32 q) ;;;
        Ret 0
  | POWER_SUPPLY_PROP_CHARGE_FULL_DESIGN =>
      battery <- get_battery ;;
      set_intval (s32 (charge_full_design_uah battery)) ;;;
      Ret 0
  | POWER_SUPPLY_PROP_ENERGY_FULL_DESIGN =>
      battery <- get_battery ;;
      set_intval (s32 (energy_full_design_uwh battery)) ;;;
      Ret 0
  | POWER_SUPPLY_PROP_TECHNOLOGY =>
      set_intval POWER_SUPPLY_TECHNOLOGY_LIPO ;;;
      Ret 0
  | POWER_SUPPLY_PROP_CURRENT_NOW =>
      ret <- max17048_get_current ;;
      if ret <? 0 then Ret ret else Ret 0
  | POWER_SUPPLY_PROP_TIME_TO_EMPTY_NOW =>
      ret <- max17048_get_time_to_empty ;;
      if ret <? 0 then Ret ret else Ret 0
  | POWER_SUPPLY_PROP_TIME_TO_FULL_NOW =>
      ret <- max17048_get_time_to_full ;;
      if ret <? 0 then Ret ret else Ret 0
  | POWER_SUPPLY_PROP_OTHER _ => Ret (- EINVAL)
  end.

(** ** Attaching the device *)

(** What [max17048_probe] consults about the device it is bound to: the
    adapter's functionality check, whether [devm_kzalloc] returns memory, the
    pointer [devm_regmap_init_i2c] returns (its error code, 0 when it is a
    regmap, and the sensor behind it), the u32 device properties by name,
    and the error code of the pointer [devm_power_supply_register] returns
    (0 when it is a power supply). *)
Record i2c_client : Type := {
  i2c_check_functionality : bool;
  devm_kzalloc_ok : bool;
  regmap_init_err : Z;
  sensor : Z -> reading;
  properties : string -> option Z;
  power_supply_register_err : Z
}.

Definition MAX_ERRNO : Z := 4095.

Definition IS_ERR (ptr_err : Z) : bool :=
  (- MAX_ERRNO <=? ptr_err) && (ptr_err <? 0).

(** [device_property_read_u32(dev, propname, &out)]: [out] is written on
    success only. *)
Definition device_property_read_u32 (client : i2c_client) (propname : string)
    (out : Z) : Z * Z :=
  match properties client propname with
  | Some v => (0, u32 v)
  | None => (- EINVAL, out)
  end.

(** The zeroed [struct max17048] that [devm_kzalloc] hands out. *)
Definition kzalloc_max17048 : max17048 :=
  {| regmap := fun _ => (- EINVAL, 0);
     charge_full_design_uah := 0;
     energy_full_design_uwh := 0 |}.

Definition set_regmap (r : Z -> reading) : M max17048 unit :=
  fun d => Some (tt, {| regmap := r;
                        charge_full_design_uah := charge_full_design_uah d;
                        energy_full_design_uwh := energy_full_design_uwh d |}).

Definition set_charge_full_design_uah (v : Z) : M max17048 unit :=
  fun d => Some (tt, {| regmap := regmap d;
                        charge_full_design_uah := v;
                        energy_full_design_uwh := energy_full_design_uwh d |}).

Definition set_energy_full_design_uwh (v : Z) : M max17048 unit :=
  fun d => Some (tt, {| regmap := regmap d;
                        charge_full_design_uah := charge_full_design_uah d;
                        energy_full_design_uwh := v |}).

Definition when {S : Type} (b : bool) (m : M S unit) : M S unit :=
  if b then m else Ret tt.

(** The store of [max17048_probe] is [*max17048_desc]. *)
Definition max17048_probe (client : i2c_client) : M max17048 Z :=
  if negb (i2c_check_functionality client) then Ret (- EIO)
  else if negb (devm_kzalloc_ok client) then Ret (- ENOMEM)
  else
    set_regmap (sensor client) ;;;
    desc <- Get ;;
    let '(ret, v) :=
      device_property_read_u32 client "charge-full-design-microamp-hours"
        (charge_full_design_uah desc) in
    set_charge_full_design_uah v ;;;
    desc <- Get ;;
    when (charge_full_design_uah desc >? 100000000)
      (set_charge_full_design_uah 100000000) ;;;
    when (negb (ret =? 0))
      ((* Fallback to legacy battery-capacity (mAh) *)
       let '(ret_mah, cap_mah) :=
         device_property_read_u32 client "battery-capacity" 0 in
       when (ret_mah =? 0)
         (when ((cap_mah >? 0) && (cap_mah <? 20000))
            (set_charge_full_design_uah (u32 (cap_mah * 1000))))) ;;;
    (* Final Default if still 0 *)
    desc <- Get ;;
    when (charge_full_design_uah desc =? 0)
      (set_charge_full_design_uah 5000000) ;;;
    desc <- Get ;;
    let '(ret, v) :=
      device_property_read_u32 client "energy-full-design-microwatt-hours"
        (energy_full_design_uwh desc) in
    set_energy_full_design_uwh v ;;;
    desc <- Get ;;
    when (negb (ret =? 0) || (energy_full_design_uwh desc =? 0))
      (q <- div_u64 (u64 (charge_full_design_uah desc) * 37) 10 ;;
       set_energy_full_design_uwh (u32 q)) ;;;
    desc <- Get ;;
    when (energy_full_design_uwh desc >? 370000000)
      (set_energy_full_design_uwh 370000000) ;;;
    if IS_ERR (regmap_init_err client) then Ret (regmap_init_err client)
    else if IS_ERR (power_supply_register_err client)
    then Ret (power_supply_register_err client)
    else Ret 0.

(** Running the probe on freshly allocated driver data. *)
Definition attach (client : i2c_client) : option (Z * max17048) :=
  max17048_probe client kzalloc_max17048.

(** ** Observing a query *)

(** What the caller of a query function sees: the value left in
    [val->intval] when the function returns 0, the code it returns otherwise,
    or a crash on a division by zero. *)
Inductive answer : Type :=
| Value (v : Z)
| Failure (code : Z)
| Crash.

Definition run_answer (m : M state Z) (st : state) : answer :=
  match m st with
  | None => Crash
  | Some (ret, st') => if ret =? 0 then Value (intval st') else Failure ret
  end.

Definition query (psp : power_supply_property) : state -> answer :=
  run_answer (max17048_get_property psp).

Definition NoData : answer := Failure (- ENODATA).

(** ** Well-formed inputs *)

(** A reading as [regmap_read] delivers it with 16-bit values: return code 0
    or a negative errno, and a word in [0, 65535]. *)
Definition reading_ok (r : reading) : bool :=
  (fst r <=? 0) && (0 <=? snd r) && (snd r <=? 65535).

Definition is_u32 (z : Z) : bool := (0 <=? z) && (z <? 2 ^ 32).

Definition option_u32 (o : option Z) : bool :=
  match o with
  | Some v => is_u32 v
  | None => true
  end.

(** ** The specification's formulas *)

Module Spec.

(** Section 4.1: voltage in microvolts. *)
Definition voltage_uV (raw_vcell : Z) : Z := raw_vcell * 625 / 8.

(** Section 4.1: state of charge, clamped into [0, 100]. *)
Definition clamp_percent (x : Z) : Z :=
  if x <? 0 then 0 else if x >? 100 then 100 else x.

Definition soc_percent (raw_soc : Z) : Z := clamp_percent (raw_soc / 256).

(** Section 4.1: the c-rate is the register as a signed 16-bit number. *)
Definition c_rate (raw_crate : Z) : Z :=
  if raw_crate <? 32768 then raw_crate else raw_crate - 65536.

(** Section 4.2: status from the c-rate reading and the SOC reading. *)
Definition status (crate_rd soc_rd : reading) : Z :=
  if negb (fst crate_rd =? 0) then POWER_SUPPLY_STATUS_UNKNOWN
  else
    let crate := c_rate (snd crate_rd) in
    if crate >? 4 then POWER_SUPPLY_STATUS_CHARGING
    else if crate <? -4 then POWER_SUPPLY_STATUS_DISCHARGING
    else if (fst soc_rd =? 0) && (soc_percent (snd soc_rd) >=? 95)
    then POWER_SUPPLY_STATUS_FULL
    else POWER_SUPPLY_STATUS_NOT_CHARGING.

(** Section 4.3: current in microamperes, truncating division. *)
Definition current_uA (design_capacity crate : Z) : Z :=
  Z.quot (design_capacity * crate * 52) 25000.

(** Section 4.4: the discharge rate after the 300 mA floor. *)
Definition floored_discharge_rate (design_capacity crate : Z) : Z :=
  let discharge_rate := Z.abs crate in
  if design_capacity >? 0 then
    let min_rate := 144230769 / design_capacity in
    if discharge_rate <? min_rate then min_rate else discharge_rate
  else discharge_rate.

Definition time_to_empty (design_capacity crate : Z) (soc_rd : reading)
  : answer :=
  if crate >=? -10 then NoData
  else if negb (fst soc_rd =? 0) then Failure (fst soc_rd)
  else
    let soc := soc_percent (snd soc_rd) in
    let discharge_rate := floored_discharge_rate design_capacity crate in
    if (design_capacity =? 0) && (discharge_rate =? 0) then NoData
    else Value (Z.quot (225000 * soc) (discharge_rate * 13)).

(** Section 4.5: no floor on the charging path. *)
Definition time_to_full (crate : Z) (soc_rd : reading) : answer :=
  if (crate <=? 10) || (crate =? 0) then NoData
  else if negb (fst soc_rd =? 0) then Failure (fst soc_rd)
  else
    let soc := soc_percent (snd soc_rd) in
    Value (Z.quot (225000 * (100 - soc)) (crate * 13)).

(** Section 3: resolving the designed capacity from the microamp-hour
    property and the legacy milliamp-hour property. *)
Definition design_capacity (uah mah : option Z) : Z :=
  let resolved :=
    match uah with
    | Some v => if v >? 100000000 then 100000000 else v
    | None =>
        match mah with
        | Some m => if (0 <? m) && (m <? 20000) then m * 1000 else 0
        | None => 0
        end
    end in
  if resolved =? 0 then 5000000 else resolved.

(** Section 3 as the driver computes it: capacity times 37 over 10. *)
Definition design_energy (design_capacity : Z) (uwh : option Z) : Z :=
  let estimate := design_capacity * 37 / 10 in
  let energy :=
    match uwh with
    | Some v => if v =? 0 then estimate else v
    | None => estimate
    end in
  Z.min 370000000 energy.

(** Section 3 as it is worded: capacity times 3.7, over 10, that is
    capacity times 37 over 100, truncated. *)
Definition design_energy_as_worded (design_capacity : Z) : Z :=
  Z.min 370000000 (design_capacity * 37 / 100).

End Spec.

(** ** Facts about runs *)

(** A computation that leaves the driver data as it found them. *)
Definition preserves {A : Type} (m : M state A) : Prop :=
  forall st a st', m st = Some (a, st') -> drvdata st' = drvdata st.

(** A run of a query on which transport errors surface: it returns [ret]
    in [st'] after the reads [new]; the reads logged are the sensor's
    answers; and a failed one is the last read, leaves the result cell
    untouched and gives the query's return code. *)
Definition surfaces (psp : power_supply_property) (st : state)
    (ret : Z) (st' : state) (new : list (Z * Z)) : Prop :=
  max17048_get_property psp st = Some (ret, st')
  /\ io_log st' = io_log st ++ new
  /\ (forall reg e, In (reg, e) new -> fst (regmap (drvdata st) reg) = e)
  /\ (forall reg e, In (reg, e) new -> e <> 0 ->
      ret = e /\ intval st' = intval st /\ last new (0, 0) = (reg, e)
      /\ query psp st = Failure e
      /\ (e <> - ENODATA -> query psp st <> NoData)).

(** ** The probe as a function of the properties *)

(** The two design fields as the probe leaves them, written as functions of
    the three device properties (see [attach_run]). *)
Definition probed_charge (uah mah : option Z) : Z :=
  let c0 := match uah with Some v => u32 v | None => 0 end in
  let c1 := if c0 >? 100000000 then 100000000 else c0 in
  let c2 := match uah, mah with
            | None, Some m =>
                if (u32 m >? 0) && (u32 m <? 20000)
                then u32 (u32 m * 1000) else c1
            | _, _ => c1
            end in
  if c2 =? 0 then 5000000 else c2.

Definition probed_energy (charge : Z) (uwh : option Z) : Z :=
  let e0 := match uwh with Some w => u32 w | None => 0 end in
  let e1 := if match uwh with Some _ => e0 =? 0 | None => true end
            then u32 (u64 (u64 charge * 37) / 10) else e0 in
  if e1 >? 370000000 then 370000000 else e1.

Definition probe_code (client : i2c_client) : Z :=
  if IS_ERR (regmap_init_err client) then regmap_init_err client
  else if IS_ERR (power_supply_register_err client)
       then power_supply_register_err client
       else 0.

(** ** Sample devices *)

Definition sample_regmap (vcell soc crate : reading) : Z -> reading :=
  fun reg => if reg =? MAX17048_VCELL_REG then vcell
             else if reg =? MAX17048_SOC_REG then soc
             else if reg =? MAX17048_CRATE_REG then crate
             else (- EINVAL, 0).

Definition sample_state (vcell soc crate : reading) (cap : Z) : state :=
  {| drvdata := {| regmap := sample_regmap vcell soc crate;
                   charge_full_design_uah := cap;
                   energy_full_design_uwh := cap * 37 / 10 |};
     intval := 0;
     io_log := [] |}.

Definition sample_desc (cap energy : Z) : max17048 :=
  {| regmap := sample_regmap (0, 50000) (0, 12800) (0, 0);
     charge_full_design_uah := cap;
     energy_full_design_uwh := energy |}.

Definition sample_client (uah mah uwh : option Z) : i2c_client :=
  {| i2c_check_functionality := true;
     devm_kzalloc_ok := true;
     regmap_init_err := 0;
     sensor := sample_regmap (0, 50000) (0, 12800) (0, 0);
     properties := fun name =>
       if String.eqb name "charge-full-design-microamp-hours" then uah
       else if String.eqb name "battery-capacity" then mah
       else if String.eqb name "energy-full-design-microwatt-hours" then uwh
       else None;
     power_supply_register_err := 0 |}.

(** A sensor whose c-rate register cannot be read: the read returns -EIO. *)
Definition crate_unreadable : state :=
  sample_state (0, 50000) (0, 12800) (- EIO, 0) 5000000.

(** A discharging sensor whose SOC read fails with the code -ENODATA. *)
Definition soc_read_nodata : state :=
  sample_state (0, 50000) (- ENODATA, 0) (0, 65525) 5000000.

(** ** A query as a function of the driver data *)

(** Driver data a query can meet: the three readings well formed and the
    designed capacity a u32. *)
Definition drvdata_ok (d : max17048) : bool :=
  reading_ok (regmap d MAX17048_VCELL_REG)
  && reading_ok (regmap d MAX17048_SOC_REG)
  && reading_ok (regmap d MAX17048_CRATE_REG)
  && is_u32 (charge_full_design_uah d).

Module Metric.

(** What [max17048_get_property] answers, read off its switch: each case
    with the reads it issues and the value it stores. *)
Definition value (psp : power_supply_property) (d : max17048) : answer :=
  let vcell := regmap d MAX17048_VCELL_REG in
  let soc := regmap d MAX17048_SOC_REG in
  let crate := regmap d MAX17048_CRATE_REG in
  let cap := charge_full_design_uah d in
  match psp with
  | POWER_SUPPLY_PROP_STATUS => Value (Spec.status crate soc)
  | POWER_SUPPLY_PROP_VOLTAGE_NOW =>
      if fst vcell =? 0 then Value (Spec.voltage_uV (snd vcell))
      else Failure (fst vcell)
  | POWER_SUPPLY_PROP_CAPACITY =>
      if fst soc =? 0 then Value (Spec.soc_percent (snd soc))
      else Failure (fst soc)
  | POWER_SUPPLY_PROP_CHARGE_NOW =>
      if fst soc =? 0
      then Value (s32 (Z.quot (Spec.soc_percent (snd soc) * cap) 100))
      else Failure (fst soc)
  | POWER_SUPPLY_PROP_CHARGE_FULL_DESIGN => Value (s32 cap)
  | POWER_SUPPLY_PROP_ENERGY_FULL_DESIGN =>
      Value (s32 (energy_full_design_uwh d))
  | POWER_SUPPLY_PROP_TECHNOLOGY => Value POWER_SUPPLY_TECHNOLOGY_LIPO
  | POWER_SUPPLY_PROP_CURRENT_NOW =>
      if fst crate =? 0
      then Value (s32 (Spec.current_uA cap (Spec.c_rate (snd crate))))
      else Failure (fst crate)
  | POWER_SUPPLY_PROP_TIME_TO_EMPTY_NOW =>
      if fst crate =? 0
      then Spec.time_to_empty cap (Spec.c_rate (snd crate)) soc
      else Failure (fst crate)
  | POWER_SUPPLY_PROP_TIME_TO_FULL_NOW =>
      if fst crate =? 0
      then Spec.time_to_full (Spec.c_rate (snd crate)) soc
      else Failure (fst crate)
  | POWER_SUPPLY_PROP_OTHER _ => Failure (- EINVAL)
  end.

(** The c-rate read, followed by the SOC read unless [skip] holds of the
    signed c-rate. *)
Definition crate_then_soc (skip : Z -> bool) (d : max17048) : list (Z * Z) :=
  let crate := regmap d MAX17048_CRATE_REG in
  if negb (fst crate =? 0) then [(MAX17048_CRATE_REG, fst crate)]
  else if skip (Spec.c_rate (snd crate)) then [(MAX17048_CRATE_REG, 0)]
  else [(MAX17048_CRATE_REG, 0);
        (MAX17048_SOC_REG, fst (regmap d MAX17048_SOC_REG))].

(** The register reads [max17048_get_property] issues, in order, each with
    its return code. *)
Definition reads (psp : power_supply_property) (d : max17048)
  : list (Z * Z) :=
  match psp with
  | POWER_SUPPLY_PROP_STATUS =>
      crate_then_soc (fun c => (c >? 4) || (c <? -4)) d
  | POWER_SUPPLY_PROP_VOLTAGE_NOW =>
      [(MAX17048_VCELL_REG, fst (regmap d MAX17048_VCELL_REG))]
  | POWER_SUPPLY_PROP_CAPACITY
  | POWER_SUPPLY_PROP_CHARGE_NOW =>
      [(MAX17048_SOC_REG, fst (regmap d MAX17048_SOC_REG))]
  | POWER_SUPPLY_PROP_CURRENT_NOW =>
      [(MAX17048_CRATE_REG, fst (regmap d MAX17048_CRATE_REG))]
  | POWER_SUPPLY_PROP_TIME_TO_EMPTY_NOW =>
      crate_then_soc (fun c => c >=? -10) d
  | POWER_SUPPLY_PROP_TIME_TO_FULL_NOW =>
      crate_then_soc (fun c => c <=? 10) d
  | _ => []
  end.

End Metric.

(** A run of [max17048_get_property] as [Metric] describes it. *)
Definition described (psp : power_supply_property) (st : state)
    (ret : Z) (st' : state) : Prop :=
  max17048_get_property psp st = Some (ret, st')
  /\ drvdata st' = drvdata st
  /\ io_log st' = io_log st ++ Metric.reads psp (drvdata st)
  /\ (if ret =? 0 then Value (intval st') else Failure ret)
     = Metric.value psp (drvdata st)
  /\ (ret <> 0 -> intval st' = intval st)
  /\ ret <= 0.

(** * Properties *)

(** ** Conversions that do not wrap *)

Lemma u32_small (z : Z) : 0 <= z < 2 ^ 32 -> u32 z = z.
Proof. intros H. unfold u32, to_unsigned. apply Z.mod_small. exact H. Qed.

Lemma u64_small (z : Z) : 0 <= z < 2 ^ 64 -> u64 z = z.
Proof. intros H. unfold u64, to_unsigned. apply Z.mod_small. exact H. Qed.

Lemma s32_small (z : Z) : - 2 ^ 31 <= z < 2 ^ 31 -> s32 z = z.
Proof.
  intros H. unfold s32, to_signed.
  change (2 ^ (32 - 1)) with (2 ^ 31).
  rewrite Z.mod_small; lia.
Qed.

Lemma s64_small (z : Z) : - 2 ^ 63 <= z < 2 ^ 63 -> s64 z = z.
Proof.
  intros H. unfold s64, to_signed.
  change (2 ^ (64 - 1)) with (2 ^ 63).
  rewrite Z.mod_small; lia.
Qed.

Lemma s16_c_rate (w : Z) : 0 <= w <= 65535 -> s16 w = Spec.c_rate w.
Proof.
  intros H. unfold s16, to_signed, Spec.c_rate.
  change (2 ^ (16 - 1)) with 32768. change (2 ^ 16) with 65536.
  destruct (Z.ltb_spec w 32768).
  - rewrite Z.mod_small; lia.
  - replace (w + 32768) with (w - 32768 + 1 * 65536) by lia.
    rewrite Z.mod_add by lia. rewrite Z.mod_small; lia.
Qed.

Lemma c_rate_range (w : Z) :
  0 <= w <= 65535 -> -32768 <= Spec.c_rate w <= 32767.
Proof.
  intros H. unfold Spec.c_rate. destruct (Z.ltb_spec w 32768); lia.
Qed.

Lemma clamp_percent_range (x : Z) : 0 <= Spec.clamp_percent x <= 100.
Proof.
  unfold Spec.clamp_percent.
  destruct (Z.ltb_spec x 0); [lia|].
  destruct (Z.gtb_spec x 100); lia.
Qed.

Lemma two_step_clamp (x : Z) :
  (if (if x <? 0 then 0 else x) >? 100 then 100
   else if x <? 0 then 0 else x) = Spec.clamp_percent x.
Proof.
  unfold Spec.clamp_percent. destruct (Z.ltb_spec x 0); reflexivity.
Qed.

Lemma soc_percent_range (s : Z) : 0 <= Spec.soc_percent s <= 100.
Proof. apply clamp_percent_range. Qed.

Lemma reading_ok_inv (e w : Z) :
  reading_ok (e, w) = true -> e <= 0 /\ 0 <= w <= 65535.
Proof.
  unfold reading_ok. cbn [fst snd]. intros H.
  apply andb_prop in H. destruct H as [H H3].
  apply andb_prop in H. destruct H as [H1 H2].
  apply Z.leb_le in H1, H2, H3. lia.
Qed.

Lemma is_u32_inv (z : Z) : is_u32 z = true -> 0 <= z < 2 ^ 32.
Proof.
  unfold is_u32. intros H. apply andb_prop in H. destruct H as [H1 H2].
  apply Z.leb_le in H1. apply Z.ltb_lt in H2. lia.
Qed.

Lemma geb_false (a b : Z) : a < b -> (a >=? b) = false.
Proof.
  intros H. unfold Z.geb. destruct (Z.compare_spec a b); try reflexivity; lia.
Qed.

(** ** Running the leaf functions *)

Lemma regmap_read_ok (st : state) (reg out w : Z) :
  regmap (drvdata st) reg = (0, w) ->
  regmap_read reg out st = Some ((0, u32 w), logged reg 0 st).
Proof.
  intros H. unfold regmap_read, Bind, get_battery. rewrite H. reflexivity.
Qed.

Lemma regmap_read_err (st : state) (reg out e w : Z) :
  regmap (drvdata st) reg = (e, w) -> e <> 0 ->
  regmap_read reg out st = Some ((e, out), logged reg e st).
Proof.
  intros H He. unfold regmap_read, Bind, get_battery. rewrite H.
  unfold log_read. apply Z.eqb_neq in He. rewrite He. reflexivity.
Qed.

Lemma div_u32_run {S : Type} (a b : Z) (s : S) :
  0 <= a < 2 ^ 32 -> 0 < b < 2 ^ 32 ->
  div_u32 a b s = Some (a / b, s).
Proof.
  intros Ha Hb. unfold div_u32. rewrite !u32_small by lia.
  destruct (Z.eqb_spec b 0); [lia | reflexivity].
Qed.

Lemma quot_abs_le (a b : Z) : 0 < b -> Z.abs (Z.quot a b) <= Z.abs a.
Proof.
  intros Hb. rewrite <- (Z.abs_eq b) at 1 by lia.
  rewrite <- Z.quot_abs by lia.
  apply Z.quot_le_upper_bound; [lia|]. nia.
Qed.

Lemma div_s64_run {S : Type} (a b : Z) (s : S) :
  - 2 ^ 63 < a < 2 ^ 63 -> 0 < b < 2 ^ 31 ->
  div_s64 a b s = Some (Z.quot a b, s).
Proof.
  intros Ha Hb. unfold div_s64. rewrite (s32_small b) by lia.
  destruct (Z.eqb_spec b 0); [lia|].
  rewrite (s64_small a) by lia.
  rewrite s64_small; [reflexivity|].
  pose proof (quot_abs_le a b ltac:(lia)). lia.
Qed.

Lemma max17048_get_vcell_ok (st : state) (v : Z) :
  regmap (drvdata st) MAX17048_VCELL_REG = (0, v) -> 0 <= v <= 65535 ->
  max17048_get_vcell st
  = Some (Spec.voltage_uV v, logged MAX17048_VCELL_REG 0 st).
Proof.
  intros H Hv. unfold max17048_get_vcell, Bind.
  rewrite (regmap_read_ok _ _ _ _ H). cbn [negb Z.eqb].
  rewrite (u32_small v) by lia.
  rewrite (u32_small (v * 625)) by lia.
  rewrite div_u32_run by lia.
  unfold Ret, Spec.voltage_uV. rewrite s32_small; [reflexivity|].
  assert (0 <= v * 625 / 8 <= v * 625).
  { split; [apply Z.div_pos; lia | apply Z.div_le_upper_bound; lia]. }
  lia.
Qed.

Lemma max17048_get_vcell_err (st : state) (e w : Z) :
  regmap (drvdata st) MAX17048_VCELL_REG = (e, w) -> e <> 0 ->
  max17048_get_vcell st = Some (e, logged MAX17048_VCELL_REG e st).
Proof.
  intros H He. unfold max17048_get_vcell, Bind.
  rewrite (regmap_read_err _ _ _ _ _ H He).
  apply Z.eqb_neq in He. rewrite He. reflexivity.
Qed.

Lemma max17048_get_soc_ok (st : state) (s : Z) :
  regmap (drvdata st) MAX17048_SOC_REG = (0, s) -> 0 <= s <= 65535 ->
  max17048_get_soc st
  = Some (Spec.soc_percent s, logged MAX17048_SOC_REG 0 st).
Proof.
  intros H Hs. unfold max17048_get_soc, Bind.
  rewrite (regmap_read_ok _ _ _ _ H). cbn [negb Z.eqb].
  rewrite (u32_small s) by lia.
  rewrite div_u32_run by lia.
  unfold Ret. cbv zeta. rewrite two_step_clamp. fold (Spec.soc_percent s).
  rewrite s32_small; [reflexivity|].
  pose proof (soc_percent_range s). lia.
Qed.

Lemma max17048_get_soc_err (st : state) (e w : Z) :
  regmap (drvdata st) MAX17048_SOC_REG = (e, w) -> e <> 0 ->
  max17048_get_soc st = Some (e, logged MAX17048_SOC_REG e st).
Proof.
  intros H He. unfold max17048_get_soc, Bind.
  rewrite (regmap_read_err _ _ _ _ _ H He).
  apply Z.eqb_neq in He. rewrite He. reflexivity.
Qed.

Lemma max17048_get_crate_ok (st : state) (c w : Z) :
  regmap (drvdata st) MAX17048_CRATE_REG = (0, w) -> 0 <= w <= 65535 ->
  max17048_get_crate c st
  = Some ((0, Spec.c_rate w), logged MAX17048_CRATE_REG 0 st).
Proof.
  intros H Hw. unfold max17048_get_crate, Bind.
  rewrite (regmap_read_ok _ _ _ _ H). cbn [negb Z.eqb].
  rewrite (u32_small w) by lia. rewrite s16_c_rate by lia. reflexivity.
Qed.

Lemma max17048_get_crate_err (st : state) (c e w : Z) :
  regmap (drvdata st) MAX17048_CRATE_REG = (e, w) -> e <> 0 ->
  max17048_get_crate c st
  = Some ((e, c), logged MAX17048_CRATE_REG e st).
Proof.
  intros H He. unfold max17048_get_crate, Bind.
  rewrite (regmap_read_err _ _ _ _ _ H He).
  apply Z.eqb_neq in He. rewrite He. reflexivity.
Qed.

(** ** Voltage and state of charge *)

Lemma query_voltage_now (st : state) (v : Z) :
  regmap (drvdata st) MAX17048_VCELL_REG = (0, v) -> 0 <= v <= 65535 ->
  max17048_get_property POWER_SUPPLY_PROP_VOLTAGE_NOW st
  = Some (0, with_intval (Spec.voltage_uV v) (logged MAX17048_VCELL_REG 0 st)).
Proof.
  intros H Hv. unfold max17048_get_property, Bind.
  rewrite (max17048_get_vcell_ok _ _ H Hv).
  assert (Hnn : 0 <= Spec.voltage_uV v)
    by (unfold Spec.voltage_uV; apply Z.div_pos; lia).
  apply Z.ltb_ge in Hnn. rewrite Hnn. reflexivity.
Qed.

Lemma query_capacity (st : state) (s : Z) :
  regmap (drvdata st) MAX17048_SOC_REG = (0, s) -> 0 <= s <= 65535 ->
  max17048_get_property POWER_SUPPLY_PROP_CAPACITY st
  = Some (0, with_intval (Spec.soc_percent s) (logged MAX17048_SOC_REG 0 st)).
Proof.
  intros H Hs. unfold max17048_get_property, Bind.
  rewrite (max17048_get_soc_ok _ _ H Hs).
  pose proof (soc_percent_range s) as [Hnn _].
  apply Z.ltb_ge in Hnn. rewrite Hnn. reflexivity.
Qed.

(** C9: for raw voltage registers in [0, 65535] the reported voltage is
    v * 625 / 8 in exact truncating integer arithmetic (the unsigned product
    does not wrap), it is never negative, and a larger register never gives a
    smaller voltage. *)
Theorem voltage_now_exact_monotone_nonneg (st1 st2 : state) (v1 v2 : Z) :
  regmap (drvdata st1) MAX17048_VCELL_REG = (0, v1) ->
  regmap (drvdata st2) MAX17048_VCELL_REG = (0, v2) ->
  0 <= v1 -> v1 <= v2 -> v2 <= 65535 ->
  max17048_get_vcell st1
  = Some (v1 * 625 / 8, logged MAX17048_VCELL_REG 0 st1)
  /\ query POWER_SUPPLY_PROP_VOLTAGE_NOW st1 = Value (v1 * 625 / 8)
  /\ query POWER_SUPPLY_PROP_VOLTAGE_NOW st2 = Value (v2 * 625 / 8)
  /\ v1 * 625 / 8 = Z.quot (v1 * 625) 8
  /\ 0 <= v1 * 625 / 8 <= v2 * 625 / 8.
Proof.
  intros H1 H2 Hlo Hle Hhi.
  split; [exact (max17048_get_vcell_ok st1 v1 H1 ltac:(lia))|].
  split.
  { unfold query, run_answer. rewrite (query_voltage_now st1 v1 H1) by lia.
    reflexivity. }
  split.
  { unfold query, run_answer. rewrite (query_voltage_now st2 v2 H2) by lia.
    reflexivity. }
  split.
  { symmetry. apply Z.quot_div_nonneg; lia. }
  split.
  - apply Z.div_pos; lia.
  - apply Z.div_le_mono; lia.
Qed.

Lemma voltage_now_witness :
  query POWER_SUPPLY_PROP_VOLTAGE_NOW
    (sample_state (0, 50000) (0, 12800) (0, 0) 5000000) = Value 3906250
  /\ query POWER_SUPPLY_PROP_VOLTAGE_NOW
       (sample_state (0, 65535) (0, 12800) (0, 0) 5000000) = Value 5119921.
Proof.
  pose proof (voltage_now_exact_monotone_nonneg
                (sample_state (0, 50000) (0, 12800) (0, 0) 5000000)
                (sample_state (0, 65535) (0, 12800) (0, 0) 5000000)
                50000 65535 eq_refl eq_refl
                ltac:(lia) ltac:(lia) ltac:(lia)) as [_ [Ha [Hb _]]].
  split; [exact Ha | exact Hb].
Defined.

(** C8: for raw SOC registers in [0, 65535] the reported state of charge is
    s / 256 clamped into [0, 100], hence always within [0, 100]; the clamp
    sends any quotient below 0 to 0, and no register value reaches that
    case. *)
Theorem soc_clamped_percent (st : state) (s : Z) :
  regmap (drvdata st) MAX17048_SOC_REG = (0, s) ->
  0 <= s <= 65535 ->
  max17048_get_soc st
  = Some (Spec.clamp_percent (s / 256), logged MAX17048_SOC_REG 0 st)
  /\ query POWER_SUPPLY_PROP_CAPACITY st = Value (Spec.clamp_percent (s / 256))
  /\ Spec.clamp_percent (s / 256) = Z.max 0 (Z.min 100 (Z.quot s 256))
  /\ 0 <= Spec.clamp_percent (s / 256) <= 100
  /\ (forall x, x < 0 -> Spec.clamp_percent x = 0)
  /\ (s / 256 <? 0) = false.
Proof.
  intros H Hs.
  split; [exact (max17048_get_soc_ok st s H Hs)|].
  split.
  { unfold query, run_answer. rewrite (query_capacity st s H Hs).
    reflexivity. }
  assert (Hq : 0 <= s / 256) by (apply Z.div_pos; lia).
  split.
  { rewrite Z.quot_div_nonneg by lia. unfold Spec.clamp_percent.
    destruct (Z.ltb_spec (s / 256) 0); [lia|].
    destruct (Z.gtb_spec (s / 256) 100); lia. }
  split; [apply clamp_percent_range|].
  split.
  - intros x Hx. unfold Spec.clamp_percent.
    destruct (Z.ltb_spec x 0); [reflexivity | lia].
  - apply Z.ltb_ge. exact Hq.
Qed.

Lemma soc_clamped_percent_witness :
  query POWER_SUPPLY_PROP_CAPACITY
    (sample_state (0, 50000) (0, 65535) (0, 0) 5000000) = Value 100.
Proof.
  exact (proj1 (proj2 (soc_clamped_percent
                         (sample_state (0, 50000) (0, 65535) (0, 0) 5000000)
                         65535 eq_refl ltac:(lia)))).
Defined.

(** ** Status *)

Lemma max17048_get_status_run (st : state) (rc wc rs ws : Z) :
  regmap (drvdata st) MAX17048_CRATE_REG = (rc, wc) ->
  regmap (drvdata st) MAX17048_SOC_REG = (rs, ws) ->
  0 <= wc <= 65535 -> rs <= 0 -> 0 <= ws <= 65535 ->
  max17048_get_status st
  = Some (Spec.status (rc, wc) (rs, ws),
          if negb (rc =? 0) then logged MAX17048_CRATE_REG rc st
          else if (Spec.c_rate wc >? 4) || (Spec.c_rate wc <? -4)
               then logged MAX17048_CRATE_REG 0 st
               else logged MAX17048_SOC_REG rs
                      (logged MAX17048_CRATE_REG 0 st)).
Proof.
  intros Hc Hs Hwc Hrs Hws.
  unfold max17048_get_status, Bind, Spec.status. cbn [fst snd].
  destruct (Z.eqb_spec rc 0) as [-> | Hrc]; cbn [negb].
  - rewrite (max17048_get_crate_ok _ _ _ Hc Hwc). cbn [negb Z.eqb].
    destruct (Spec.c_rate wc >? 4); [reflexivity|].
    destruct (Spec.c_rate wc <? -4); [reflexivity|]. cbn [orb].
    destruct (Z.eqb_spec rs 0) as [-> | Hrs0].
    + rewrite (max17048_get_soc_ok (logged MAX17048_CRATE_REG 0 st) ws Hs Hws).
      cbn [andb].
      destruct (Spec.soc_percent ws >=? 95); reflexivity.
    + rewrite (max17048_get_soc_err (logged MAX17048_CRATE_REG 0 st) rs ws
                 Hs Hrs0).
      cbn [andb]. rewrite geb_false by lia. reflexivity.
  - rewrite (max17048_get_crate_err _ _ _ _ Hc Hrc).
    apply Z.eqb_neq in Hrc. rewrite Hrc. reflexivity.
Qed.

(** C1: the status is a function of the two latest readings alone.  A failed
    c-rate read gives Unknown; otherwise a signed c-rate above 4 gives
    Charging, one below -4 gives Discharging, and inside the band the status
    is Full when the state of charge is at least 95 and NotCharging
    otherwise. *)
Theorem status_from_latest_readings (st : state) (crate_rd soc_rd : reading) :
  regmap (drvdata st) MAX17048_CRATE_REG = crate_rd ->
  regmap (drvdata st) MAX17048_SOC_REG = soc_rd ->
  reading_ok crate_rd = true ->
  reading_ok soc_rd = true ->
  let crate := Spec.c_rate (snd crate_rd) in
  let soc := Spec.soc_percent (snd soc_rd) in
  exists code st',
    max17048_get_status st = Some (code, st')
    /\ query POWER_SUPPLY_PROP_STATUS st = Value code
    /\ code = Spec.status crate_rd soc_rd
    /\ (fst crate_rd <> 0 -> code = POWER_SUPPLY_STATUS_UNKNOWN)
    /\ (fst crate_rd = 0 -> crate > 4 -> code = POWER_SUPPLY_STATUS_CHARGING)
    /\ (fst crate_rd = 0 -> crate < -4 ->
        code = POWER_SUPPLY_STATUS_DISCHARGING)
    /\ (fst crate_rd = 0 -> -4 <= crate <= 4 -> fst soc_rd = 0 ->
        95 <= soc -> code = POWER_SUPPLY_STATUS_FULL)
    /\ (fst crate_rd = 0 -> -4 <= crate <= 4 ->
        (fst soc_rd <> 0 \/ soc < 95) ->
        code = POWER_SUPPLY_STATUS_NOT_CHARGING).
Proof.
  destruct crate_rd as [rc wc], soc_rd as [rs ws].
  intros Hc Hs Hcok Hsok crate soc. subst crate soc. cbn [fst snd].
  apply reading_ok_inv in Hcok, Hsok.
  pose proof (max17048_get_status_run st rc wc rs ws Hc Hs
                ltac:(lia) ltac:(lia) ltac:(lia)) as Hrun.
  eexists; eexists.
  split; [exact Hrun|].
  split.
  { unfold query, run_answer, max17048_get_property, Bind.
    rewrite Hrun. reflexivity. }
  split; [reflexivity|].
  unfold Spec.status. cbn [fst snd].
  set (crate := Spec.c_rate wc). set (soc := Spec.soc_percent ws).
  repeat split.
  - intros Hne. apply Z.eqb_neq in Hne. rewrite Hne. reflexivity.
  - intros -> Hgt. cbn [Z.eqb negb].
    apply Z.gt_lt, Z.gtb_lt in Hgt. rewrite Hgt. reflexivity.
  - intros -> Hlt. cbn [Z.eqb negb].
    destruct (Z.gtb_spec crate 4); [lia|].
    apply Z.ltb_lt in Hlt. rewrite Hlt. reflexivity.
  - intros -> Hband -> Hsoc. cbn [Z.eqb negb andb].
    destruct (Z.gtb_spec crate 4); [lia|].
    destruct (Z.ltb_spec crate (-4)); [lia|].
    apply Z.geb_le in Hsoc. rewrite Hsoc. reflexivity.
  - intros -> Hband Hsoc. cbn [Z.eqb negb].
    destruct (Z.gtb_spec crate 4); [lia|].
    destruct (Z.ltb_spec crate (-4)); [lia|].
    destruct (Z.eqb_spec rs 0) as [-> | Hne]; [|reflexivity].
    cbn [andb]. destruct Hsoc as [Hsoc | Hsoc]; [congruence|].
    assert (Hlt : (soc >=? 95) = false).
    { unfold Z.geb. destruct (Z.compare_spec soc 95); try reflexivity; lia. }
    rewrite Hlt. reflexivity.
Qed.

Lemma status_from_latest_readings_witness :
  query POWER_SUPPLY_PROP_STATUS
    (sample_state (0, 50000) (0, 24576) (0, 3) 5000000)
  = Value POWER_SUPPLY_STATUS_FULL.
Proof.
  destruct (status_from_latest_readings
              (sample_state (0, 50000) (0, 24576) (0, 3) 5000000)
              (0, 3) (0, 24576) eq_refl eq_refl eq_refl eq_refl)
    as (code & st' & _ & Hq & Hcode & _).
  rewrite Hq, Hcode. reflexivity.
Defined.

(** ** Current *)

Lemma max17048_get_current_ok (st : state) (w : Z) :
  regmap (drvdata st) MAX17048_CRATE_REG = (0, w) -> 0 <= w <= 65535 ->
  0 <= charge_full_design_uah (drvdata st) < 2 ^ 32 ->
  max17048_get_current st
  = Some (0, with_intval
               (s32 (Spec.current_uA (charge_full_design_uah (drvdata st))
                                     (Spec.c_rate w)))
               (logged MAX17048_CRATE_REG 0 st)).
Proof.
  intros H Hw Hcap. unfold max17048_get_current, Bind.
  rewrite (max17048_get_crate_ok _ _ _ H Hw). cbn [negb Z.eqb].
  unfold get_battery. cbn [drvdata logged].
  set (cap := charge_full_design_uah (drvdata st)) in *.
  pose proof (c_rate_range w Hw) as Hc.
  set (c := Spec.c_rate w) in *.
  assert (Hp : - (2 ^ 32 * 32768) <= cap * c <= 2 ^ 32 * 32768) by nia.
  rewrite (s64_small cap) by lia.
  rewrite (s64_small (cap * c)) by lia.
  rewrite (s64_small (cap * c * 52)) by lia.
  rewrite div_s64_run by lia.
  reflexivity.
Qed.

Lemma max17048_get_current_err (st : state) (e w : Z) :
  regmap (drvdata st) MAX17048_CRATE_REG = (e, w) -> e <> 0 ->
  max17048_get_current st = Some (e, logged MAX17048_CRATE_REG e st).
Proof.
  intros H He. unfold max17048_get_current, Bind.
  rewrite (max17048_get_crate_err _ _ _ _ H He).
  apply Z.eqb_neq in He. rewrite He. reflexivity.
Qed.

Lemma current_uA_bound (cap c bound : Z) :
  0 <= cap -> Z.abs (cap * c) <= bound ->
  Z.abs (Spec.current_uA cap c) <= Z.quot (bound * 52) 25000.
Proof.
  intros Hcap Hb. unfold Spec.current_uA.
  rewrite <- (Z.abs_eq 25000) at 1 by lia.
  rewrite <- Z.quot_abs by lia.
  apply Z.quot_le_mono; lia.
Qed.

(** C4, amended: CurrentNow fails exactly when the c-rate read fails, with
    the read's code.  Otherwise the quotient DesignCapacity * c_rate * 52 /
    25000 is computed in 64-bit arithmetic with truncating division and then
    narrowed to the 32-bit [int] of the result cell.  The stored value is the
    quotient itself whenever the quotient fits in 32 bits: for every c-rate
    when the capacity is at most 31,500,000, and for |c-rate| <= 10324 at any
    capacity up to 100,000,000.  The noise band is not suppressed: the same
    formula applies there, and gives 0 at c-rate 0. *)
Theorem current_now_narrowed (st : state) (crate_rd : reading) :
  regmap (drvdata st) MAX17048_CRATE_REG = crate_rd ->
  reading_ok crate_rd = true ->
  is_u32 (charge_full_design_uah (drvdata st)) = true ->
  let cap := charge_full_design_uah (drvdata st) in
  let crate := Spec.c_rate (snd crate_rd) in
  exists ret st',
    max17048_get_current st = Some (ret, st')
    /\ (ret <> 0 <-> fst crate_rd <> 0)
    /\ ret = fst crate_rd
    /\ query POWER_SUPPLY_PROP_CURRENT_NOW st
       = (if fst crate_rd =? 0 then Value (s32 (Spec.current_uA cap crate))
          else Failure (fst crate_rd))
    /\ (fst crate_rd <> 0 -> intval st' = intval st)
    /\ (fst crate_rd = 0 ->
        intval st' = s32 (Spec.current_uA cap crate)
        /\ (INT_MIN <= Spec.current_uA cap crate <= INT_MAX ->
            intval st' = Spec.current_uA cap crate)
        /\ (cap <= 31500000 -> intval st' = Spec.current_uA cap crate)
        /\ (cap <= 100000000 -> -10324 <= crate <= 10324 ->
            intval st' = Spec.current_uA cap crate)
        /\ (-4 <= crate <= 4 -> intval st' = Spec.current_uA cap crate)
        /\ (crate = 0 -> intval st' = 0)).
Proof.
  destruct crate_rd as [rc wc]. intros H Hok Hcap cap crate.
  apply reading_ok_inv in Hok. apply is_u32_inv in Hcap.
  cbn [fst snd] in *. fold cap in Hcap.
  destruct (Z.eqb_spec rc 0) as [-> | Hrc].
  - pose proof (max17048_get_current_ok st wc H ltac:(lia) Hcap) as Hrun.
    fold cap in Hrun. fold crate in Hrun.
    eexists; eexists. split; [exact Hrun|].
    split; [tauto|]. split; [reflexivity|].
    split.
    { unfold query, run_answer, max17048_get_property, Bind.
      rewrite Hrun. reflexivity. }
    split; [congruence|]. intros _.
    cbn [intval with_intval].
    assert (Hfit : INT_MIN <= Spec.current_uA cap crate <= INT_MAX ->
                   s32 (Spec.current_uA cap crate) = Spec.current_uA cap crate).
    { unfold INT_MIN, INT_MAX. intros Hr. apply s32_small. lia. }
    pose proof (c_rate_range wc ltac:(lia)) as Hc. fold crate in Hc.
    assert (Hsmall : forall b, Z.abs (cap * crate) <= b ->
                       Z.quot (b * 52) 25000 <= INT_MAX ->
                       s32 (Spec.current_uA cap crate)
                       = Spec.current_uA cap crate).
    { intros b Hb Hq. apply Hfit.
      pose proof (current_uA_bound cap crate b ltac:(lia) Hb).
      unfold INT_MIN, INT_MAX in *. lia. }
    split; [reflexivity|].
    split; [exact Hfit|].
    split.
    { intros Hle. apply (Hsmall (31500000 * 32768)); [nia|].
      vm_compute. discriminate. }
    split.
    { intros Hle Hb. apply (Hsmall (100000000 * 10324)); [nia|].
      vm_compute. discriminate. }
    split.
    { intros Hb. apply (Hsmall (2 ^ 32 * 4)); [nia|].
      vm_compute. discriminate. }
    intros ->. unfold Spec.current_uA.
    rewrite Z.mul_0_r. reflexivity.
  - pose proof (max17048_get_current_err st rc wc H Hrc) as Hrun.
    eexists; eexists. split; [exact Hrun|].
    split; [tauto|]. split; [reflexivity|].
    split.
    { unfold query, run_answer, max17048_get_property, Bind.
      rewrite Hrun.
      assert (Hneg : (rc <? 0) = true) by (apply Z.ltb_lt; lia).
      rewrite Hneg. unfold Ret.
      apply Z.eqb_neq in Hrc. rewrite Hrc. reflexivity. }
    split; [reflexivity|]. intros Heq. contradiction.
Qed.

Lemma current_now_narrowed_witness :
  query POWER_SUPPLY_PROP_CURRENT_NOW
    (sample_state (0, 50000) (0, 12800) (0, 65526) 5000000)
  = Value (-104000).
Proof.
  destruct (current_now_narrowed
              (sample_state (0, 50000) (0, 12800) (0, 65526) 5000000)
              (0, 65526) eq_refl eq_refl eq_refl)
    as (ret & st' & _ & _ & _ & Hq & _).
  exact Hq.
Defined.

(** C4 as stated fails: with the largest capacity the probe stores,
    100,000,000, and the c-rate register at 0x7FFF, the quotient is
    6,815,536,000 but the value reported is its low 32 bits read as signed,
    -1,774,398,592. *)
Lemma current_now_wraps :
  Spec.current_uA 100000000 (Spec.c_rate 32767) = 6815536000
  /\ query POWER_SUPPLY_PROP_CURRENT_NOW
       (sample_state (0, 50000) (0, 12800) (0, 32767) 100000000)
     = Value (-1774398592)
  /\ query POWER_SUPPLY_PROP_CURRENT_NOW
       (sample_state (0, 50000) (0, 12800) (0, 32767) 100000000)
     <> Value (Spec.current_uA 100000000 (Spec.c_rate 32767)).
Proof.
  split; [reflexivity|].
  split; [vm_compute; reflexivity|].
  vm_compute. discriminate.
Qed.

(** ** Time to empty *)

Lemma floored_discharge_rate_range (cap crate : Z) :
  0 <= cap -> -32768 <= crate < -10 ->
  11 <= Spec.floored_discharge_rate cap crate <= 144230769.
Proof.
  intros Hcap Hc. unfold Spec.floored_discharge_rate.
  destruct (Z.gtb_spec cap 0) as [Hpos | Hz]; [|lia].
  assert (Hq : 0 <= 144230769 / cap <= 144230769).
  { split; [apply Z.div_pos; lia|].
    apply Z.div_le_upper_bound; [lia | nia]. }
  destruct (Z.ltb_spec (Z.abs crate) (144230769 / cap)); lia.
Qed.

Lemma floored_discharge_rate_max (cap crate : Z) :
  0 < cap ->
  Spec.floored_discharge_rate cap crate
  = Z.max (Z.abs crate) (144230769 / cap).
Proof.
  intros Hcap. unfold Spec.floored_discharge_rate.
  destruct (Z.gtb_spec cap 0); [|lia].
  destruct (Z.ltb_spec (Z.abs crate) (144230769 / cap)); lia.
Qed.

Lemma time_to_empty_discharge_rate_run (st : state) (crate : Z) :
  0 <= charge_full_design_uah (drvdata st) < 2 ^ 32 ->
  -32768 <= crate < -10 ->
  time_to_empty_discharge_rate crate st
  = Some (inr (Spec.floored_discharge_rate
                 (charge_full_design_uah (drvdata st)) crate), st).
Proof.
  intros Hcap Hc.
  unfold time_to_empty_discharge_rate, Bind, get_battery,
    Spec.floored_discharge_rate.
  set (cap := charge_full_design_uah (drvdata st)) in *.
  rewrite (s32_small (Z.abs crate)) by lia.
  destruct (Z.gtb_spec cap 0) as [Hpos | Hz].
  - rewrite div_u32_run by lia.
    assert (Hq : 0 <= 144230769 / cap <= 144230769).
    { split; [apply Z.div_pos; lia|].
      apply Z.div_le_upper_bound; [lia | nia]. }
    rewrite (s32_small (144230769 / cap)) by lia.
    destruct (Z.abs crate <? 144230769 / cap); reflexivity.
  - destruct (Z.eqb_spec (Z.abs crate) 0); [lia | reflexivity].
Qed.

Lemma max17048_get_time_to_empty_ok (st : state) (wc ws : Z) :
  regmap (drvdata st) MAX17048_CRATE_REG = (0, wc) ->
  regmap (drvdata st) MAX17048_SOC_REG = (0, ws) ->
  0 <= wc <= 65535 -> 0 <= ws <= 65535 ->
  0 <= charge_full_design_uah (drvdata st) < 2 ^ 32 ->
  Spec.c_rate wc < -10 ->
  max17048_get_time_to_empty st
  = Some (0, with_intval
               (Z.quot (225000 * Spec.soc_percent ws)
                       (Spec.floored_discharge_rate
                          (charge_full_design_uah (drvdata st))
                          (Spec.c_rate wc) * 13))
               (logged MAX17048_SOC_REG 0 (logged MAX17048_CRATE_REG 0 st))).
Proof.
  intros Hc Hs Hwc Hws Hcap Hlt.
  unfold max17048_get_time_to_empty, Bind.
  rewrite (max17048_get_crate_ok _ _ _ Hc Hwc). cbn [negb Z.eqb].
  pose proof (c_rate_range wc Hwc) as Hr.
  set (crate := Spec.c_rate wc) in *.
  assert (Hge : (crate >=? -10) = false).
  { unfold Z.geb. destruct (Z.compare_spec crate (-10)); try reflexivity; lia. }
  rewrite Hge.
  rewrite (max17048_get_soc_ok (logged MAX17048_CRATE_REG 0 st) ws Hs Hws).
  pose proof (soc_percent_range ws) as Hsoc.
  set (soc := Spec.soc_percent ws) in *.
  assert (Hnn : (soc <? 0) = false) by (apply Z.ltb_ge; lia).
  rewrite Hnn.
  rewrite (time_to_empty_discharge_rate_run
             (logged MAX17048_SOC_REG 0 (logged MAX17048_CRATE_REG 0 st))
             crate Hcap ltac:(lia)).
  cbn [drvdata logged].
  pose proof (floored_discharge_rate_range
                (charge_full_design_uah (drvdata st)) crate
                ltac:(lia) ltac:(lia)) as Hrate.
  set (rate := Spec.floored_discharge_rate _ crate) in *.
  assert (Hpos : (rate <=? 0) = false) by (apply Z.leb_gt; lia).
  rewrite Hpos.
  rewrite (s64_small (225000 * soc)) by lia.
  rewrite (s64_small (rate * 13)) by lia.
  rewrite div_s64_run by lia.
  unfold set_intval, Ret.
  rewrite s32_small; [reflexivity|].
  pose proof (quot_abs_le (225000 * soc) (rate * 13) ltac:(lia)). lia.
Qed.

Lemma max17048_get_time_to_empty_nodata (st : state) (wc : Z) :
  regmap (drvdata st) MAX17048_CRATE_REG = (0, wc) ->
  0 <= wc <= 65535 ->
  -10 <= Spec.c_rate wc ->
  max17048_get_time_to_empty st
  = Some (- ENODATA, logged MAX17048_CRATE_REG 0 st).
Proof.
  intros Hc Hwc Hge. unfold max17048_get_time_to_empty, Bind.
  rewrite (max17048_get_crate_ok _ _ _ Hc Hwc). cbn [negb Z.eqb].
  apply Z.geb_le in Hge. rewrite Hge. reflexivity.
Qed.

Lemma max17048_get_time_to_empty_soc_err (st : state) (wc e ws : Z) :
  regmap (drvdata st) MAX17048_CRATE_REG = (0, wc) ->
  regmap (drvdata st) MAX17048_SOC_REG = (e, ws) ->
  0 <= wc <= 65535 -> e < 0 ->
  Spec.c_rate wc < -10 ->
  max17048_get_time_to_empty st
  = Some (e, logged MAX17048_SOC_REG e (logged MAX17048_CRATE_REG 0 st)).
Proof.
  intros Hc Hs Hwc He Hlt. unfold max17048_get_time_to_empty, Bind.
  rewrite (max17048_get_crate_ok _ _ _ Hc Hwc). cbn [negb Z.eqb].
  assert (Hge : (Spec.c_rate wc >=? -10) = false).
  { unfold Z.geb.
    destruct (Z.compare_spec (Spec.c_rate wc) (-10)); try reflexivity; lia. }
  rewrite Hge.
  rewrite (max17048_get_soc_err (logged MAX17048_CRATE_REG 0 st) e ws Hs
             ltac:(lia)).
  apply Z.ltb_lt in He. rewrite He. reflexivity.
Qed.

Lemma max17048_get_time_to_empty_crate_err (st : state) (e w : Z) :
  regmap (drvdata st) MAX17048_CRATE_REG = (e, w) -> e <> 0 ->
  max17048_get_time_to_empty st = Some (e, logged MAX17048_CRATE_REG e st).
Proof.
  intros H He. unfold max17048_get_time_to_empty, Bind.
  rewrite (max17048_get_crate_err _ _ _ _ H He).
  apply Z.eqb_neq in He. rewrite He. reflexivity.
Qed.

Lemma query_of_run (psp : power_supply_property) (m : M state Z) (st : state) :
  (forall s, max17048_get_property psp s
             = (ret <- m ;; if ret <? 0 then Ret ret else Ret 0) s) ->
  (forall ret st', m st = Some (ret, st') -> ret <= 0) ->
  query psp st = run_answer m st.
Proof.
  intros Hdef Hneg. unfold query, run_answer. rewrite Hdef. unfold Bind.
  destruct (m st) as [[ret st'] |] eqn:Hm; [|reflexivity].
  specialize (Hneg ret st' eq_refl).
  destruct (Z.ltb_spec ret 0) as [Hlt | Hge]; unfold Ret.
  - reflexivity.
  - assert (ret = 0) by lia. subst ret. reflexivity.
Qed.

Lemma time_to_empty_answer (st : state) (wc rs ws : Z) :
  regmap (drvdata st) MAX17048_CRATE_REG = (0, wc) ->
  regmap (drvdata st) MAX17048_SOC_REG = (rs, ws) ->
  0 <= wc <= 65535 -> rs <= 0 -> 0 <= ws <= 65535 ->
  0 <= charge_full_design_uah (drvdata st) < 2 ^ 32 ->
  run_answer max17048_get_time_to_empty st
  = Spec.time_to_empty (charge_full_design_uah (drvdata st))
                       (Spec.c_rate wc) (rs, ws)
  /\ query POWER_SUPPLY_PROP_TIME_TO_EMPTY_NOW st
     = run_answer max17048_get_time_to_empty st.
Proof.
  intros Hc Hs Hwc Hrs Hws Hcap.
  assert (Hrun : run_answer max17048_get_time_to_empty st
                 = Spec.time_to_empty (charge_full_design_uah (drvdata st))
                     (Spec.c_rate wc) (rs, ws)
                 /\ forall ret st', max17048_get_time_to_empty st
                                    = Some (ret, st') -> ret <= 0).
  { unfold run_answer, Spec.time_to_empty. cbn [fst snd].
    pose proof (c_rate_range wc Hwc) as Hr.
    destruct (Z_le_gt_dec (-10) (Spec.c_rate wc)) as [Hge | Hlt].
    - rewrite (max17048_get_time_to_empty_nodata st wc Hc Hwc Hge).
      apply Z.geb_le in Hge. rewrite Hge.
      split; [reflexivity|]. intros ret st' [= <- _]. unfold ENODATA. lia.
    - rewrite geb_false by lia.
      destruct (Z.eqb_spec rs 0) as [-> | Hne]; cbn [negb].
      + rewrite (max17048_get_time_to_empty_ok st wc ws Hc Hs Hwc Hws Hcap)
          by lia.
        pose proof (floored_discharge_rate_range
                      (charge_full_design_uah (drvdata st)) (Spec.c_rate wc)
                      ltac:(lia) ltac:(lia)) as Hrate.
        destruct (Z.eqb_spec (Spec.floored_discharge_rate
                    (charge_full_design_uah (drvdata st)) (Spec.c_rate wc)) 0);
          [lia|].
        rewrite andb_false_r.
        split; [reflexivity|]. intros ret st' [= <- _]. lia.
      + rewrite (max17048_get_time_to_empty_soc_err st wc rs ws Hc Hs Hwc)
          by lia.
        apply Z.eqb_neq in Hne. rewrite Hne.
        split; [reflexivity|]. intros ret st' [= <- _]. lia. }
  destruct Hrun as [Hrun Hneg].
  split; [exact Hrun|].
  apply query_of_run; [reflexivity | exact Hneg].
Qed.

(** C2: TimeToEmpty answers no-data when the c-rate is at least -10, the SOC
    read's error when that read fails, and otherwise
    225000 * soc / (discharge_rate * 13) with truncating division, where the
    discharge rate is |c-rate| raised to the floor 144230769 / DesignCapacity
    when the capacity is positive; with a zero capacity there is no floor,
    and a zero discharge rate would give no-data. *)
Theorem time_to_empty_floored (st : state) (wc : Z) (soc_rd : reading) :
  regmap (drvdata st) MAX17048_CRATE_REG = (0, wc) ->
  regmap (drvdata st) MAX17048_SOC_REG = soc_rd ->
  0 <= wc <= 65535 ->
  reading_ok soc_rd = true ->
  is_u32 (charge_full_design_uah (drvdata st)) = true ->
  let cap := charge_full_design_uah (drvdata st) in
  let crate := Spec.c_rate wc in
  let soc := Spec.soc_percent (snd soc_rd) in
  let answer := query POWER_SUPPLY_PROP_TIME_TO_EMPTY_NOW st in
  answer = run_answer max17048_get_time_to_empty st
  /\ answer = Spec.time_to_empty cap crate soc_rd
  /\ (-10 <= crate -> answer = NoData)
  /\ (crate < -10 -> fst soc_rd <> 0 -> answer = Failure (fst soc_rd))
  /\ (crate < -10 -> fst soc_rd = 0 -> 0 < cap ->
      answer = Value (Z.quot (225000 * soc)
                             (Z.max (Z.abs crate) (144230769 / cap) * 13)))
  /\ (crate < -10 -> fst soc_rd = 0 -> cap = 0 ->
      answer = Value (Z.quot (225000 * soc) (Z.abs crate * 13))).
Proof.
  destruct soc_rd as [rs ws]. intros Hc Hs Hwc Hok Hcap cap crate soc answer.
  apply reading_ok_inv in Hok. apply is_u32_inv in Hcap.
  cbn [fst snd] in *.
  destruct (time_to_empty_answer st wc rs ws Hc Hs Hwc) as [Hrun Hq]; try lia.
  fold answer in Hq. fold cap crate in Hrun. rewrite <- Hq in Hrun.
  split; [exact Hq|]. split; [exact Hrun|].
  rewrite Hrun. unfold Spec.time_to_empty. cbn [fst snd]. fold soc.
  pose proof (c_rate_range wc Hwc) as Hr. fold crate in Hr.
  repeat split.
  - intros Hge. apply Z.geb_le in Hge. rewrite Hge. reflexivity.
  - intros Hlt Hne. rewrite geb_false by lia.
    apply Z.eqb_neq in Hne. rewrite Hne. reflexivity.
  - intros Hlt -> Hpos. rewrite geb_false by lia. cbn [Z.eqb negb].
    destruct (Z.eqb_spec cap 0); [lia|]. cbn [andb].
    rewrite floored_discharge_rate_max by lia. reflexivity.
  - intros Hlt -> Hz. rewrite geb_false by lia. cbn [Z.eqb negb].
    rewrite Hz. unfold Spec.floored_discharge_rate. cbn [Z.gtb Z.compare].
    destruct (Z.eqb_spec (Z.abs crate) 0); [lia|]. reflexivity.
Qed.

Lemma time_to_empty_floored_witness :
  query POWER_SUPPLY_PROP_TIME_TO_EMPTY_NOW
    (sample_state (0, 50000) (0, 12800) (0, 65525) 5000000)
  = Value 30906.
Proof.
  pose proof (time_to_empty_floored
                (sample_state (0, 50000) (0, 12800) (0, 65525) 5000000)
                65525 (0, 12800) eq_refl eq_refl ltac:(lia) eq_refl eq_refl)
    as (_ & _ & _ & _ & Hv & _).
  exact (Hv ltac:(reflexivity) eq_refl ltac:(reflexivity)).
Defined.

(** ** Time to full *)

Lemma max17048_get_time_to_full_ok (st : state) (wc ws : Z) :
  regmap (drvdata st) MAX17048_CRATE_REG = (0, wc) ->
  regmap (drvdata st) MAX17048_SOC_REG = (0, ws) ->
  0 <= wc <= 65535 -> 0 <= ws <= 65535 ->
  10 < Spec.c_rate wc ->
  max17048_get_time_to_full st
  = Some (0, with_intval
               (Z.quot (225000 * (100 - Spec.soc_percent ws))
                       (Spec.c_rate wc * 13))
               (logged MAX17048_SOC_REG 0 (logged MAX17048_CRATE_REG 0 st))).
Proof.
  intros Hc Hs Hwc Hws Hgt.
  unfold max17048_get_time_to_full, Bind.
  rewrite (max17048_get_crate_ok _ _ _ Hc Hwc). cbn [negb Z.eqb].
  pose proof (c_rate_range wc Hwc) as Hr.
  set (crate := Spec.c_rate wc) in *.
  assert (Hle : (crate <=? 10) = false) by (apply Z.leb_gt; lia).
  rewrite Hle.
  rewrite (max17048_get_soc_ok (logged MAX17048_CRATE_REG 0 st) ws Hs Hws).
  pose proof (soc_percent_range ws) as Hsoc.
  set (soc := Spec.soc_percent ws) in *.
  assert (Hnn : (soc <? 0) = false) by (apply Z.ltb_ge; lia).
  rewrite Hnn.
  destruct (Z.eqb_spec crate 0); [lia|].
  rewrite (s32_small (100 - soc)) by lia.
  rewrite (s64_small (225000 * (100 - soc))) by lia.
  rewrite (s64_small (crate * 13)) by lia.
  rewrite div_s64_run by lia.
  unfold set_intval, Ret.
  rewrite s32_small; [reflexivity|].
  pose proof (quot_abs_le (225000 * (100 - soc)) (crate * 13) ltac:(lia)).
  lia.
Qed.

Lemma max17048_get_time_to_full_nodata (st : state) (wc : Z) :
  regmap (drvdata st) MAX17048_CRATE_REG = (0, wc) ->
  0 <= wc <= 65535 ->
  Spec.c_rate wc <= 10 ->
  max17048_get_time_to_full st
  = Some (- ENODATA, logged MAX17048_CRATE_REG 0 st).
Proof.
  intros Hc Hwc Hle. unfold max17048_get_time_to_full, Bind.
  rewrite (max17048_get_crate_ok _ _ _ Hc Hwc). cbn [negb Z.eqb].
  apply Z.leb_le in Hle. rewrite Hle. reflexivity.
Qed.

Lemma max17048_get_time_to_full_soc_err (st : state) (wc e ws : Z) :
  regmap (drvdata st) MAX17048_CRATE_REG = (0, wc) ->
  regmap (drvdata st) MAX17048_SOC_REG = (e, ws) ->
  0 <= wc <= 65535 -> e < 0 ->
  10 < Spec.c_rate wc ->
  max17048_get_time_to_full st
  = Some (e, logged MAX17048_SOC_REG e (logged MAX17048_CRATE_REG 0 st)).
Proof.
  intros Hc Hs Hwc He Hgt. unfold max17048_get_time_to_full, Bind.
  rewrite (max17048_get_crate_ok _ _ _ Hc Hwc). cbn [negb Z.eqb].
  assert (Hle : (Spec.c_rate wc <=? 10) = false) by (apply Z.leb_gt; lia).
  rewrite Hle.
  rewrite (max17048_get_soc_err (logged MAX17048_CRATE_REG 0 st) e ws Hs
             ltac:(lia)).
  apply Z.ltb_lt in He. rewrite He. reflexivity.
Qed.

Lemma max17048_get_time_to_full_crate_err (st : state) (e w : Z) :
  regmap (drvdata st) MAX17048_CRATE_REG = (e, w) -> e <> 0 ->
  max17048_get_time_to_full st = Some (e, logged MAX17048_CRATE_REG e st).
Proof.
  intros H He. unfold max17048_get_time_to_full, Bind.
  rewrite (max17048_get_crate_err _ _ _ _ H He).
  apply Z.eqb_neq in He. rewrite He. reflexivity.
Qed.

Lemma time_to_full_answer (st : state) (wc rs ws : Z) :
  regmap (drvdata st) MAX17048_CRATE_REG = (0, wc) ->
  regmap (drvdata st) MAX17048_SOC_REG = (rs, ws) ->
  0 <= wc <= 65535 -> rs <= 0 -> 0 <= ws <= 65535 ->
  run_answer max17048_get_time_to_full st
  = Spec.time_to_full (Spec.c_rate wc) (rs, ws)
  /\ query POWER_SUPPLY_PROP_TIME_TO_FULL_NOW st
     = run_answer max17048_get_time_to_full st.
Proof.
  intros Hc Hs Hwc Hrs Hws.
  assert (Hrun : run_answer max17048_get_time_to_full st
                 = Spec.time_to_full (Spec.c_rate wc) (rs, ws)
                 /\ forall ret st', max17048_get_time_to_full st
                                    = Some (ret, st') -> ret <= 0).
  { unfold run_answer, Spec.time_to_full. cbn [fst snd].
    pose proof (c_rate_range wc Hwc) as Hr.
    destruct (Z_le_gt_dec (Spec.c_rate wc) 10) as [Hle | Hgt].
    - rewrite (max17048_get_time_to_full_nodata st wc Hc Hwc Hle).
      apply Z.leb_le in Hle. rewrite Hle. cbn [orb].
      split; [reflexivity|]. intros ret st' [= <- _]. unfold ENODATA. lia.
    - assert (Hle : (Spec.c_rate wc <=? 10) = false) by (apply Z.leb_gt; lia).
      rewrite Hle.
      destruct (Z.eqb_spec (Spec.c_rate wc) 0); [lia|]. cbn [orb].
      destruct (Z.eqb_spec rs 0) as [-> | Hne]; cbn [negb].
      + rewrite (max17048_get_time_to_full_ok st wc ws Hc Hs Hwc Hws) by lia.
        split; [reflexivity|]. intros ret st' [= <- _]. lia.
      + rewrite (max17048_get_time_to_full_soc_err st wc rs ws Hc Hs Hwc)
          by lia.
        apply Z.eqb_neq in Hne. rewrite Hne.
        split; [reflexivity|]. intros ret st' [= <- _]. lia. }
  destruct Hrun as [Hrun Hneg].
  split; [exact Hrun|].
  apply query_of_run; [reflexivity | exact Hneg].
Qed.

(** C6: TimeToFull answers no-data when the c-rate is at most 10 (which
    covers 0), the SOC read's error when that read fails, and otherwise
    225000 * (100 - soc) / (c_rate * 13) with truncating division on the raw
    c-rate: no floor, and no dependence on the designed capacity.  A c-rate
    of 0 gives no-data; a c-rate of 11 at soc 90 gives 15734 seconds. *)
Theorem time_to_full_unfloored (st : state) (wc : Z) (soc_rd : reading) :
  regmap (drvdata st) MAX17048_CRATE_REG = (0, wc) ->
  regmap (drvdata st) MAX17048_SOC_REG = soc_rd ->
  0 <= wc <= 65535 ->
  reading_ok soc_rd = true ->
  let crate := Spec.c_rate wc in
  let soc := Spec.soc_percent (snd soc_rd) in
  let answer := query POWER_SUPPLY_PROP_TIME_TO_FULL_NOW st in
  answer = run_answer max17048_get_time_to_full st
  /\ answer = Spec.time_to_full crate soc_rd
  /\ (crate <= 10 \/ crate = 0 -> answer = NoData)
  /\ (10 < crate -> fst soc_rd <> 0 -> answer = Failure (fst soc_rd))
  /\ (10 < crate -> fst soc_rd = 0 ->
      answer = Value (Z.quot (225000 * (100 - soc)) (crate * 13))
      /\ 0 <= Z.quot (225000 * (100 - soc)) (crate * 13))
  /\ (crate = 11 -> fst soc_rd = 0 -> soc = 90 -> answer = Value 15734).
Proof.
  destruct soc_rd as [rs ws]. intros Hc Hs Hwc Hok crate soc answer.
  apply reading_ok_inv in Hok. cbn [fst snd] in *.
  destruct (time_to_full_answer st wc rs ws Hc Hs Hwc) as [Hrun Hq]; try lia.
  fold answer in Hq. fold crate in Hrun. rewrite <- Hq in Hrun.
  split; [exact Hq|]. split; [exact Hrun|].
  rewrite Hrun. unfold Spec.time_to_full. cbn [fst snd]. fold soc.
  pose proof (soc_percent_range ws) as Hsoc. fold soc in Hsoc.
  assert (Hval : 10 < crate -> rs = 0 ->
                 (if (crate <=? 10) || (crate =? 0) then NoData
                  else if negb (rs =? 0) then Failure rs
                  else Value (Z.quot (225000 * (100 - soc)) (crate * 13)))
                 = Value (Z.quot (225000 * (100 - soc)) (crate * 13))).
  { intros Hgt ->.
    assert (Hle : (crate <=? 10) = false) by (apply Z.leb_gt; lia).
    rewrite Hle. destruct (Z.eqb_spec crate 0); [lia | reflexivity]. }
  split.
  { intros Hor.
    assert (Hle : (crate <=? 10) = true) by (apply Z.leb_le; lia).
    rewrite Hle. reflexivity. }
  split.
  { intros Hgt Hne.
    assert (Hle : (crate <=? 10) = false) by (apply Z.leb_gt; lia).
    rewrite Hle. destruct (Z.eqb_spec crate 0); [lia|]. cbn [orb].
    apply Z.eqb_neq in Hne. rewrite Hne. reflexivity. }
  split.
  { intros Hgt Hz. split; [exact (Hval Hgt Hz)|].
    apply Z.quot_pos; lia. }
  intros Hc11 Hz Hs90. rewrite (Hval ltac:(lia) Hz).
  rewrite Hc11, Hs90. reflexivity.
Qed.

Lemma time_to_full_unfloored_witness :
  query POWER_SUPPLY_PROP_TIME_TO_FULL_NOW
    (sample_state (0, 50000) (0, 23040) (0, 11) 5000000)
  = Value 15734
  /\ query POWER_SUPPLY_PROP_TIME_TO_FULL_NOW
       (sample_state (0, 50000) (0, 23040) (0, 0) 5000000)
     = NoData.
Proof.
  split.
  - pose proof (time_to_full_unfloored
                  (sample_state (0, 50000) (0, 23040) (0, 11) 5000000)
                  11 (0, 23040) eq_refl eq_refl ltac:(lia) eq_refl)
      as (_ & _ & _ & _ & _ & Hv).
    exact (Hv eq_refl eq_refl eq_refl).
  - pose proof (time_to_full_unfloored
                  (sample_state (0, 50000) (0, 23040) (0, 0) 5000000)
                  0 (0, 23040) eq_refl eq_refl ltac:(lia) eq_refl)
      as (_ & _ & Hn & _).
    apply Hn. right. reflexivity.
Defined.

(** ** Queries leave the driver data alone *)

Lemma preserves_ret {A : Type} (a : A) : preserves (Ret a).
Proof. intros st a' st' [= _ <-]. reflexivity. Qed.

Lemma preserves_trap {A : Type} : preserves (@Trap state A).
Proof. intros st a st' H. discriminate H. Qed.

Lemma preserves_bind {A B : Type} (m : M state A) (k : A -> M state B) :
  preserves m -> (forall a, preserves (k a)) -> preserves (Bind m k).
Proof.
  intros Hm Hk st b st' H. unfold Bind in H.
  destruct (m st) as [[a s1] |] eqn:Em; [|discriminate H].
  rewrite (Hk a s1 b st' H). exact (Hm st a s1 Em).
Qed.

Lemma preserves_get_battery : preserves get_battery.
Proof. intros st a st' [= _ <-]. reflexivity. Qed.

Lemma preserves_set_intval (v : Z) : preserves (set_intval v).
Proof. intros st a st' [= _ <-]. reflexivity. Qed.

Lemma preserves_log_read (reg ret : Z) : preserves (log_read reg ret).
Proof. intros st a st' [= _ <-]. reflexivity. Qed.

Lemma preserves_div_s64 (a b : Z) : preserves (div_s64 a b).
Proof.
  unfold div_s64. destruct (s32 b =? 0);
    [apply preserves_trap | apply preserves_ret].
Qed.

Lemma preserves_div_u32 (a b : Z) : preserves (div_u32 a b).
Proof.
  unfold div_u32. destruct (u32 b =? 0);
    [apply preserves_trap | apply preserves_ret].
Qed.

Ltac preserves_step :=
  first
    [ apply preserves_ret
    | apply preserves_trap
    | apply preserves_get_battery
    | apply preserves_set_intval
    | apply preserves_log_read
    | apply preserves_div_s64
    | apply preserves_div_u32
    | apply preserves_bind; [|intros ?]
    | progress cbv zeta
    | match goal with
      | |- preserves (match ?x with (_, _) => _ end) => destruct x
      | |- preserves (match ?x with inl _ => _ | inr _ => _ end) => destruct x
      | |- preserves (if ?b then _ else _) => destruct b
      end ].

Lemma preserves_regmap_read (reg out : Z) : preserves (regmap_read reg out).
Proof. unfold regmap_read. repeat preserves_step. Qed.

Lemma preserves_get_vcell : preserves max17048_get_vcell.
Proof.
  unfold max17048_get_vcell.
  apply preserves_bind; [apply preserves_regmap_read | intros ?].
  repeat preserves_step.
Qed.

Lemma preserves_get_soc : preserves max17048_get_soc.
Proof.
  unfold max17048_get_soc.
  apply preserves_bind; [apply preserves_regmap_read | intros ?].
  repeat preserves_step.
Qed.

Lemma preserves_get_crate (c : Z) : preserves (max17048_get_crate c).
Proof.
  unfold max17048_get_crate.
  apply preserves_bind; [apply preserves_regmap_read | intros ?].
  repeat preserves_step.
Qed.

Ltac preserves_calls :=
  repeat first
    [ apply preserves_get_crate
    | apply preserves_get_soc
    | apply preserves_get_vcell
    | preserves_step ].

Lemma preserves_get_status : preserves max17048_get_status.
Proof. unfold max17048_get_status. preserves_calls. Qed.

Lemma preserves_get_current : preserves max17048_get_current.
Proof. unfold max17048_get_current. preserves_calls. Qed.

Lemma preserves_discharge_rate (crate : Z) :
  preserves (time_to_empty_discharge_rate crate).
Proof. unfold time_to_empty_discharge_rate. preserves_calls. Qed.

Lemma preserves_get_time_to_empty : preserves max17048_get_time_to_empty.
Proof.
  unfold max17048_get_time_to_empty.
  repeat first [ apply preserves_discharge_rate | preserves_calls ].
Qed.

Lemma preserves_get_time_to_full : preserves max17048_get_time_to_full.
Proof. unfold max17048_get_time_to_full. preserves_calls. Qed.

Lemma preserves_get_property (psp : power_supply_property) :
  preserves (max17048_get_property psp).
Proof.
  destruct psp; unfold max17048_get_property;
    repeat first
      [ apply preserves_get_status
      | apply preserves_get_current
      | apply preserves_get_time_to_empty
      | apply preserves_get_time_to_full
      | preserves_calls ].
Qed.

(** ** Attach time *)

Ltac probe_reduce :=
  cbn [negb andb orb Z.eqb Z.opp Pos.eqb EINVAL fst snd regmap
       charge_full_design_uah energy_full_design_uwh kzalloc_max17048].

Lemma attach_run (client : i2c_client) :
  i2c_check_functionality client = true ->
  devm_kzalloc_ok client = true ->
  let uah := properties client "charge-full-design-microamp-hours" in
  let mah := properties client "battery-capacity" in
  let uwh := properties client "energy-full-design-microwatt-hours" in
  attach client
  = Some (probe_code client,
          {| regmap := sensor client;
             charge_full_design_uah := probed_charge uah mah;
             energy_full_design_uwh :=
               probed_energy (probed_charge uah mah) uwh |}).
Proof.
  intros Hi Hk uah mah uwh.
  unfold attach, max17048_probe. rewrite Hi, Hk. cbn [negb].
  unfold div_u64. change (u32 10) with 10. cbn [Z.eqb].
  unfold Bind, set_regmap, Get, device_property_read_u32, when,
    set_charge_full_design_uah, set_energy_full_design_uwh, Ret.
  fold uah mah uwh.
  unfold probe_code, probed_energy, probed_charge.
  destruct uah as [v|]; destruct mah as [m|]; destruct uwh as [w|];
    probe_reduce; cbv zeta;
    repeat (match goal with
            | |- context [if ?b then _ else _] => destruct b eqn:?
            end; probe_reduce);
    reflexivity.
Qed.

Lemma attach_success_inv (client : i2c_client) (desc : max17048) :
  attach client = Some (0, desc) ->
  i2c_check_functionality client = true /\ devm_kzalloc_ok client = true.
Proof.
  unfold attach, max17048_probe.
  destruct (i2c_check_functionality client); cbn [negb];
    [|intros H; discriminate H].
  destruct (devm_kzalloc_ok client); cbn [negb];
    [|intros H; discriminate H].
  intros _. split; reflexivity.
Qed.

Lemma attach_success (client : i2c_client) (desc : max17048) :
  attach client = Some (0, desc) ->
  let uah := properties client "charge-full-design-microamp-hours" in
  let mah := properties client "battery-capacity" in
  let uwh := properties client "energy-full-design-microwatt-hours" in
  charge_full_design_uah desc = probed_charge uah mah
  /\ energy_full_design_uwh desc = probed_energy (probed_charge uah mah) uwh.
Proof.
  intros H uah mah uwh.
  destruct (attach_success_inv client desc H) as [Hi Hk].
  rewrite (attach_run client Hi Hk) in H.
  injection H as _ <-. split; reflexivity.
Qed.

Lemma u32_range (z : Z) : 0 <= u32 z < 2 ^ 32.
Proof. unfold u32, to_unsigned. apply Z.mod_pos_bound. lia. Qed.

Lemma probed_charge_range (uah mah : option Z) :
  0 < probed_charge uah mah <= 100000000.
Proof.
  unfold probed_charge.
  set (c0 := match uah with Some v => u32 v | None => 0 end).
  assert (Hc0 : 0 <= c0) by (subst c0; destruct uah; [apply u32_range | lia]).
  set (c1 := if c0 >? 100000000 then 100000000 else c0).
  assert (Hc1 : 0 <= c1 <= 100000000)
    by (subst c1; destruct (Z.gtb_spec c0 100000000); lia).
  cbv zeta.
  set (c2 := match uah, mah with
             | None, Some m =>
                 if (u32 m >? 0) && (u32 m <? 20000)
                 then u32 (u32 m * 1000) else c1
             | _, _ => c1
             end).
  assert (Hc2 : 0 <= c2 <= 100000000).
  { subst c2. destruct uah as [v|]; [exact Hc1|].
    destruct mah as [m|]; [|exact Hc1].
    destruct (Z.gtb_spec (u32 m) 0); cbn [andb]; [|exact Hc1].
    destruct (Z.ltb_spec (u32 m) 20000); [|exact Hc1].
    rewrite u32_small; lia. }
  destruct (Z.eqb_spec c2 0); lia.
Qed.

Lemma probed_charge_spec (uah mah : option Z) :
  option_u32 uah = true -> option_u32 mah = true ->
  probed_charge uah mah = Spec.design_capacity uah mah.
Proof.
  intros Ha Hb. unfold probed_charge, Spec.design_capacity.
  destruct uah as [v|]; cbn [option_u32] in Ha.
  - apply is_u32_inv in Ha. rewrite (u32_small v Ha). reflexivity.
  - destruct mah as [m|]; cbn [option_u32] in Hb; [|reflexivity].
    apply is_u32_inv in Hb. rewrite (u32_small m Hb).
    cbn [Z.gtb Z.compare]. rewrite Z.gtb_ltb.
    destruct (Z.ltb_spec 0 m); cbn [andb]; [|reflexivity].
    destruct (Z.ltb_spec m 20000); [|reflexivity].
    rewrite u32_small by lia. reflexivity.
Qed.

Lemma probed_energy_spec (charge : Z) (uwh : option Z) :
  0 <= charge <= 100000000 -> option_u32 uwh = true ->
  probed_energy charge uwh = Spec.design_energy charge uwh.
Proof.
  intros Hc Hw. unfold probed_energy, Spec.design_energy.
  rewrite (u64_small charge) by lia.
  rewrite (u64_small (charge * 37)) by lia.
  assert (Hq : 0 <= charge * 37 / 10 <= 370000000).
  { split; [apply Z.div_pos; lia|].
    apply Z.div_le_upper_bound; lia. }
  rewrite (u32_small (charge * 37 / 10)) by lia.
  destruct uwh as [w|]; cbn [option_u32] in Hw.
  - apply is_u32_inv in Hw. rewrite (u32_small w Hw). cbv zeta.
    destruct (Z.eqb_spec w 0).
    + destruct (Z.gtb_spec (charge * 37 / 10) 370000000); lia.
    + destruct (Z.gtb_spec w 370000000); lia.
  - cbv zeta. destruct (Z.gtb_spec (charge * 37 / 10) 370000000); lia.
Qed.

(** C5: at attach time the designed capacity is resolved from the
    microamp-hour property (clamped to 100,000,000), or when that property is
    absent from a legacy milliamp-hour value strictly between 0 and 20000
    (times 1000), and a result of 0 becomes 5,000,000; 150,000,000 resolves to
    100,000,000 and a supplied 0 to 5,000,000.  No query changes the stored
    value afterwards. *)
Theorem design_capacity_resolution
    (client : i2c_client) (desc : max17048) (uah mah : option Z) :
  attach client = Some (0, desc) ->
  properties client "charge-full-design-microamp-hours" = uah ->
  properties client "battery-capacity" = mah ->
  option_u32 uah = true ->
  option_u32 mah = true ->
  let cap := charge_full_design_uah desc in
  cap = Spec.design_capacity uah mah
  /\ (forall v, uah = Some v -> 100000000 < v -> cap = 100000000)
  /\ (forall v, uah = Some v -> 0 < v <= 100000000 -> cap = v)
  /\ (forall m, uah = None -> mah = Some m -> 0 < m < 20000 ->
      cap = m * 1000)
  /\ (forall m, uah = None -> mah = Some m -> m = 0 \/ 20000 <= m ->
      cap = 5000000)
  /\ (uah = None -> mah = None -> cap = 5000000)
  /\ (uah = Some 150000000 -> cap = 100000000)
  /\ (uah = Some 0 -> cap = 5000000)
  /\ (forall psp st ret st',
        charge_full_design_uah (drvdata st) = cap ->
        max17048_get_property psp st = Some (ret, st') ->
        charge_full_design_uah (drvdata st') = cap).
Proof.
  intros Hat Huah Hmah Ha Hb cap.
  destruct (attach_success client desc Hat) as [Hcap _].
  rewrite Huah, Hmah in Hcap. fold cap in Hcap.
  rewrite (probed_charge_spec uah mah Ha Hb) in Hcap.
  split; [exact Hcap|].
  rewrite Hcap. unfold Spec.design_capacity.
  repeat split.
  - intros v -> Hv. destruct (Z.gtb_spec v 100000000); [reflexivity | lia].
  - intros v -> Hv. destruct (Z.gtb_spec v 100000000); [lia|].
    destruct (Z.eqb_spec v 0); [lia | reflexivity].
  - intros m -> -> Hm.
    destruct (Z.ltb_spec 0 m); [|lia].
    destruct (Z.ltb_spec m 20000); [|lia]. cbn [andb].
    destruct (Z.eqb_spec (m * 1000) 0); [lia | reflexivity].
  - intros m -> -> Hm.
    destruct (Z.ltb_spec 0 m); destruct (Z.ltb_spec m 20000);
      cbn [andb]; try reflexivity; lia.
  - intros -> ->. reflexivity.
  - intros ->. reflexivity.
  - intros ->. reflexivity.
  - intros psp st ret st' Hst Hrun.
    rewrite (preserves_get_property psp st ret st' Hrun). exact Hst.
Qed.

Lemma design_capacity_resolution_witness :
  attach (sample_client (Some 150000000) None None)
  = Some (0, sample_desc 100000000 370000000)
  /\ charge_full_design_uah (sample_desc 100000000 370000000)
     = Spec.design_capacity (Some 150000000) None.
Proof.
  split; [reflexivity|].
  exact (proj1 (design_capacity_resolution
                  (sample_client (Some 150000000) None None)
                  (sample_desc 100000000 370000000)
                  (Some 150000000) None
                  eq_refl eq_refl eq_refl eq_refl eq_refl)).
Defined.

(** C7, amended: when the designed energy is not configured, or configured
    as 0, it is DesignCapacity * 37 / 10 (capacity times the nominal 3.7 V)
    with truncating division, clamped to at most 370,000,000; a configured
    non-zero value is kept, under the same clamp.  No query changes the
    stored value afterwards. *)
Theorem design_energy_resolution
    (client : i2c_client) (desc : max17048) (uwh : option Z) :
  attach client = Some (0, desc) ->
  properties client "energy-full-design-microwatt-hours" = uwh ->
  option_u32 uwh = true ->
  let cap := charge_full_design_uah desc in
  let energy := energy_full_design_uwh desc in
  energy = Spec.design_energy cap uwh
  /\ (uwh = None \/ uwh = Some 0 ->
      energy = Z.min 370000000 (cap * 37 / 10)
      /\ energy = Z.quot (cap * 37) 10)
  /\ (forall w, uwh = Some w -> w <> 0 -> energy = Z.min 370000000 w)
  /\ energy <= 370000000
  /\ (forall psp st ret st',
        energy_full_design_uwh (drvdata st) = energy ->
        max17048_get_property psp st = Some (ret, st') ->
        energy_full_design_uwh (drvdata st') = energy).
Proof.
  intros Hat Huwh Hw cap energy.
  destruct (attach_success client desc Hat) as [Hcap Hen].
  fold cap in Hcap. fold energy in Hen.
  rewrite <- Hcap, Huwh in Hen.
  pose proof (probed_charge_range
                (properties client "charge-full-design-microamp-hours")
                (properties client "battery-capacity")) as Hrange.
  rewrite <- Hcap in Hrange.
  rewrite (probed_energy_spec cap uwh ltac:(lia) Hw) in Hen.
  split; [exact Hen|].
  assert (Hq : 0 <= cap * 37 / 10 <= 370000000).
  { split; [apply Z.div_pos; lia|].
    apply Z.div_le_upper_bound; lia. }
  rewrite Hen. unfold Spec.design_energy.
  repeat split.
  - destruct H as [-> | ->]; reflexivity.
  - destruct H as [-> | ->]; cbn [Z.eqb];
      rewrite Z.quot_div_nonneg by lia; lia.
  - intros w -> Hne. destruct (Z.eqb_spec w 0); [contradiction | reflexivity].
  - apply Z.le_min_l.
  - intros psp st ret st' Hst Hrun.
    rewrite (preserves_get_property psp st ret st' Hrun). exact Hst.
Qed.

Lemma design_energy_resolution_witness :
  attach (sample_client None None None)
  = Some (0, sample_desc 5000000 18500000)
  /\ energy_full_design_uwh (sample_desc 5000000 18500000)
     = Spec.design_energy 5000000 None.
Proof.
  split; [reflexivity|].
  exact (proj1 (design_energy_resolution
                  (sample_client None None None)
                  (sample_desc 5000000 18500000) None
                  eq_refl eq_refl eq_refl)).
Defined.

(** C7 as worded fails: with nothing configured the capacity is 5,000,000
    and the stored energy is 18,500,000, ten times the 1,850,000 that
    capacity * 3.7 / 10 gives. *)
Lemma design_energy_not_a_tenth :
  attach (sample_client None None None)
  = Some (0, sample_desc 5000000 18500000)
  /\ properties (sample_client None None None)
       "energy-full-design-microwatt-hours" = None
  /\ Spec.design_energy_as_worded 5000000 = 1850000
  /\ energy_full_design_uwh (sample_desc 5000000 18500000)
     <> Spec.design_energy_as_worded
          (charge_full_design_uah (sample_desc 5000000 18500000)).
Proof.
  split; [reflexivity|].
  split; [reflexivity|].
  split; [reflexivity|].
  vm_compute. discriminate.
Qed.

(** C10: after a successful attach the stored capacity lies in
    (0, 100,000,000].  So in TimeToEmpty the capacity test succeeds and the
    zero-capacity fallback is never taken, the floor 144230769 / capacity is
    at least 1, a c-rate below -10 gives a discharge rate of at least 11, the
    divisor discharge_rate * 13 is strictly positive as a 32-bit divisor, and
    the computation never divides by zero. *)
Theorem attached_capacity_positive
    (client : i2c_client) (desc : max17048) (st : state)
    (crate_rd soc_rd : reading) :
  attach client = Some (0, desc) ->
  charge_full_design_uah (drvdata st) = charge_full_design_uah desc ->
  regmap (drvdata st) MAX17048_CRATE_REG = crate_rd ->
  regmap (drvdata st) MAX17048_SOC_REG = soc_rd ->
  reading_ok crate_rd = true ->
  reading_ok soc_rd = true ->
  let cap := charge_full_design_uah desc in
  0 < cap <= 100000000
  /\ (cap >? 0) = true
  /\ 1 <= 144230769 / cap
  /\ max17048_get_time_to_empty st <> None
  /\ (forall crate, -32768 <= crate < -10 ->
      exists rate,
        time_to_empty_discharge_rate crate st = Some (inr rate, st)
        /\ rate = Z.max (Z.abs crate) (144230769 / cap)
        /\ 11 <= rate
        /\ 0 < s32 (s64 (rate * 13))
        /\ div_s64 (s64 (225000 * Spec.soc_percent (snd soc_rd)))
                   (s64 (rate * 13)) st <> None).
Proof.
  destruct crate_rd as [rc wc], soc_rd as [rs ws].
  intros Hat Hst Hc Hs Hcok Hsok cap.
  apply reading_ok_inv in Hcok, Hsok.
  destruct (attach_success client desc Hat) as [Hcap _]. fold cap in Hcap.
  pose proof (probed_charge_range
                (properties client "charge-full-design-microamp-hours")
                (properties client "battery-capacity")) as Hrange.
  rewrite <- Hcap in Hrange. fold cap in Hst.
  split; [exact Hrange|].
  split; [apply Z.gtb_lt; lia|].
  split; [apply Z.div_le_lower_bound; lia|].
  assert (Hu32 : 0 <= charge_full_design_uah (drvdata st) < 2 ^ 32)
    by (rewrite Hst; lia).
  split.
  - destruct (Z.eq_dec rc 0) as [-> | Hrc].
    + pose proof (time_to_empty_answer st wc rs ws Hc Hs
                    ltac:(lia) ltac:(lia) ltac:(lia) Hu32) as [Hrun _].
      intros Hnone. unfold run_answer in Hrun. rewrite Hnone in Hrun.
      unfold Spec.time_to_empty in Hrun.
      repeat match type of Hrun with
             | context [if ?b then _ else _] => destruct b
             end; discriminate Hrun.
    + rewrite (max17048_get_time_to_empty_crate_err st rc wc Hc Hrc).
      discriminate.
  - intros crate Hcr.
    pose proof (time_to_empty_discharge_rate_run st crate Hu32 Hcr) as Hrun.
    pose proof (floored_discharge_rate_range
                  (charge_full_design_uah (drvdata st)) crate
                  ltac:(lia) Hcr) as Hrate.
    rewrite Hst in Hrun, Hrate.
    rewrite (floored_discharge_rate_max cap crate ltac:(lia)) in Hrun, Hrate.
    exists (Z.max (Z.abs crate) (144230769 / cap)).
    split; [exact Hrun|]. split; [reflexivity|]. split; [lia|].
    set (rate := Z.max (Z.abs crate) (144230769 / cap)) in *.
    rewrite (s64_small (rate * 13)) by lia.
    split; [rewrite s32_small; lia|].
    pose proof (soc_percent_range ws) as Hsoc. cbn [snd].
    rewrite (s64_small (225000 * Spec.soc_percent ws)) by lia.
    rewrite div_s64_run by lia. discriminate.
Qed.

Lemma attached_capacity_positive_witness :
  max17048_get_time_to_empty
    (sample_state (0, 50000) (0, 12800) (0, 65525) 5000000) <> None.
Proof.
  exact (proj1 (proj2 (proj2 (proj2
    (attached_capacity_positive
       (sample_client None None None) (sample_desc 5000000 18500000)
       (sample_state (0, 50000) (0, 12800) (0, 65525) 5000000)
       (0, 65525) (0, 12800)
       eq_refl eq_refl eq_refl eq_refl eq_refl eq_refl))))).
Defined.

(** ** Propagation of transport errors *)

Lemma charge_now_ok (st : state) (s : Z) :
  regmap (drvdata st) MAX17048_SOC_REG = (0, s) -> 0 <= s <= 65535 ->
  0 <= charge_full_design_uah (drvdata st) < 2 ^ 32 ->
  max17048_get_property POWER_SUPPLY_PROP_CHARGE_NOW st
  = Some (0, with_intval
               (s32 (Z.quot (Spec.soc_percent s
                             * charge_full_design_uah (drvdata st)) 100))
               (logged MAX17048_SOC_REG 0 st)).
Proof.
  intros H Hs Hcap. unfold max17048_get_property, Bind.
  rewrite (max17048_get_soc_ok _ _ H Hs).
  pose proof (soc_percent_range s) as Hsoc.
  assert (Hnn : (Spec.soc_percent s <? 0) = false) by (apply Z.ltb_ge; lia).
  rewrite Hnn. unfold get_battery. cbn [drvdata logged].
  rewrite s64_small by nia.
  rewrite div_s64_run by nia.
  reflexivity.
Qed.

Lemma wrapped_run (m : M state Z) (st st' : state) (ret : Z) :
  m st = Some (ret, st') -> ret <= 0 ->
  (r <- m ;; if r <? 0 then Ret r else Ret 0) st = Some (ret, st').
Proof.
  intros Hm Hle. unfold Bind. rewrite Hm.
  destruct (Z.ltb_spec ret 0); unfold Ret; [reflexivity|].
  replace ret with 0 by lia. reflexivity.
Qed.

Lemma query_failure (psp : power_supply_property) (st st' : state) (e : Z) :
  max17048_get_property psp st = Some (e, st') -> e <> 0 ->
  query psp st = Failure e
  /\ (e <> - ENODATA -> query psp st <> NoData).
Proof.
  intros Hrun He. unfold query, run_answer. rewrite Hrun.
  apply Z.eqb_neq in He. rewrite He.
  split; [reflexivity|]. intros Hne [= Heq]. contradiction.
Qed.

Ltac log_cases :=
  cbn [In app]; intros;
  repeat match goal with
         | H : _ \/ _ |- _ => destruct H
         | H : False |- _ => destruct H
         | H : (_, _) = (_, _) |- _ => injection H as <- <-
         end.

Lemma surfaces_intro (psp : power_supply_property) (st st' : state)
    (ret : Z) (new : list (Z * Z)) :
  max17048_get_property psp st = Some (ret, st') ->
  io_log st' = io_log st ++ new ->
  (forall reg e, In (reg, e) new ->
     fst (regmap (drvdata st) reg) = e
     /\ (e <> 0 ->
         ret = e /\ intval st' = intval st /\ last new (0, 0) = (reg, e))) ->
  surfaces psp st ret st' new.
Proof.
  intros Hrun Hlog Hin. unfold surfaces.
  split; [exact Hrun|]. split; [exact Hlog|].
  split; [intros reg e H; exact (proj1 (Hin reg e H))|].
  intros reg e H He.
  destruct (Hin reg e H) as [_ Hfail].
  destruct (Hfail He) as (Hret & Hval & Hlast).
  split; [exact Hret|]. split; [exact Hval|]. split; [exact Hlast|].
  subst ret. exact (query_failure psp st st' e Hrun He).
Qed.

Ltac close_run Hrun :=
  eexists; eexists; eexists;
  apply surfaces_intro;
  [ exact Hrun
  | cbn [io_log logged with_intval];
    first [ symmetry; apply app_nil_r
          | rewrite <- ?app_assoc; reflexivity ]
  | log_cases;
    repeat match goal with
           | H : regmap _ _ = _ |- _ => rewrite H
           end;
    cbn [fst snd intval logged with_intval last app];
    (split; [reflexivity | intros; first [ lia | repeat split; reflexivity ]])
  ].

Lemma non_status_surfaces (psp : power_supply_property) (st : state) :
  In psp max17048_battery_props ->
  psp <> POWER_SUPPLY_PROP_STATUS ->
  reading_ok (regmap (drvdata st) MAX17048_VCELL_REG) = true ->
  reading_ok (regmap (drvdata st) MAX17048_SOC_REG) = true ->
  reading_ok (regmap (drvdata st) MAX17048_CRATE_REG) = true ->
  is_u32 (charge_full_design_uah (drvdata st)) = true ->
  exists ret st' new, surfaces psp st ret st' new.
Proof.
  intros Hin Hns Hv Hs Hc Hcap.
  destruct (regmap (drvdata st) MAX17048_VCELL_REG) as [rv wv] eqn:Ev.
  destruct (regmap (drvdata st) MAX17048_SOC_REG) as [rs ws] eqn:Es.
  destruct (regmap (drvdata st) MAX17048_CRATE_REG) as [rc wc] eqn:Ec.
  apply reading_ok_inv in Hv, Hs, Hc. apply is_u32_inv in Hcap.
  pose proof (c_rate_range wc ltac:(lia)) as Hrange.
  destruct psp; try contradiction.
  - (* VOLTAGE_NOW *)
    destruct (Z.eq_dec rv 0) as [-> | Hne].
    + pose proof (query_voltage_now st wv Ev ltac:(lia)) as Hrun.
      close_run Hrun.
    + assert (Hrun : max17048_get_property POWER_SUPPLY_PROP_VOLTAGE_NOW st
                     = Some (rv, logged MAX17048_VCELL_REG rv st)).
      { unfold max17048_get_property, Bind.
        rewrite (max17048_get_vcell_err st rv wv Ev Hne).
        assert (Hlt : (rv <? 0) = true) by (apply Z.ltb_lt; lia).
        rewrite Hlt. reflexivity. }
      close_run Hrun.
  - (* CAPACITY *)
    destruct (Z.eq_dec rs 0) as [-> | Hne].
    + pose proof (query_capacity st ws Es ltac:(lia)) as Hrun.
      close_run Hrun.
    + assert (Hrun : max17048_get_property POWER_SUPPLY_PROP_CAPACITY st
                     = Some (rs, logged MAX17048_SOC_REG rs st)).
      { unfold max17048_get_property, Bind.
        rewrite (max17048_get_soc_err st rs ws Es Hne).
        assert (Hlt : (rs <? 0) = true) by (apply Z.ltb_lt; lia).
        rewrite Hlt. reflexivity. }
      close_run Hrun.
  - (* CHARGE_FULL_DESIGN *)
    assert (Hrun : max17048_get_property POWER_SUPPLY_PROP_CHARGE_FULL_DESIGN st
                   = Some (0, with_intval
                                (s32 (charge_full_design_uah (drvdata st))) st))
      by reflexivity.
    close_run Hrun.
  - (* CHARGE_NOW *)
    destruct (Z.eq_dec rs 0) as [-> | Hne].
    + pose proof (charge_now_ok st ws Es ltac:(lia) Hcap) as Hrun.
      close_run Hrun.
    + assert (Hrun : max17048_get_property POWER_SUPPLY_PROP_CHARGE_NOW st
                     = Some (rs, logged MAX17048_SOC_REG rs st)).
      { unfold max17048_get_property, Bind.
        rewrite (max17048_get_soc_err st rs ws Es Hne).
        assert (Hlt : (rs <? 0) = true) by (apply Z.ltb_lt; lia).
        rewrite Hlt. reflexivity. }
      close_run Hrun.
  - (* ENERGY_FULL_DESIGN *)
    assert (Hrun : max17048_get_property POWER_SUPPLY_PROP_ENERGY_FULL_DESIGN st
                   = Some (0, with_intval
                                (s32 (energy_full_design_uwh (drvdata st))) st))
      by reflexivity.
    close_run Hrun.
  - (* TECHNOLOGY *)
    assert (Hrun : max17048_get_property POWER_SUPPLY_PROP_TECHNOLOGY st
                   = Some (0, with_intval POWER_SUPPLY_TECHNOLOGY_LIPO st))
      by reflexivity.
    close_run Hrun.
  - (* CURRENT_NOW *)
    destruct (Z.eq_dec rc 0) as [-> | Hne].
    + pose proof (wrapped_run _ _ _ _
                    (max17048_get_current_ok st wc Ec ltac:(lia) Hcap)
                    ltac:(lia)) as Hrun.
      close_run Hrun.
    + pose proof (wrapped_run _ _ _ _
                    (max17048_get_current_err st rc wc Ec Hne)
                    ltac:(lia)) as Hrun.
      close_run Hrun.
  - (* TIME_TO_EMPTY_NOW *)
    destruct (Z.eq_dec rc 0) as [-> | Hne].
    + destruct (Z_le_gt_dec (-10) (Spec.c_rate wc)) as [Hge | Hlt].
      * pose proof (wrapped_run _ _ _ _
                      (max17048_get_time_to_empty_nodata st wc Ec
                         ltac:(lia) Hge)
                      ltac:(unfold ENODATA; lia)) as Hrun.
        close_run Hrun.
      * destruct (Z.eq_dec rs 0) as [-> | Hnes].
        -- pose proof (wrapped_run _ _ _ _
                         (max17048_get_time_to_empty_ok st wc ws Ec Es
                            ltac:(lia) ltac:(lia) Hcap ltac:(lia))
                         ltac:(lia)) as Hrun.
           close_run Hrun.
        -- pose proof (wrapped_run _ _ _ _
                         (max17048_get_time_to_empty_soc_err st wc rs ws Ec Es
                            ltac:(lia) ltac:(lia) ltac:(lia))
                         ltac:(lia)) as Hrun.
           close_run Hrun.
    + pose proof (wrapped_run _ _ _ _
                    (max17048_get_time_to_empty_crate_err st rc wc Ec Hne)
                    ltac:(lia)) as Hrun.
      close_run Hrun.
  - (* TIME_TO_FULL_NOW *)
    destruct (Z.eq_dec rc 0) as [-> | Hne].
    + destruct (Z_le_gt_dec (Spec.c_rate wc) 10) as [Hle | Hgt].
      * pose proof (wrapped_run _ _ _ _
                      (max17048_get_time_to_full_nodata st wc Ec
                         ltac:(lia) Hle)
                      ltac:(unfold ENODATA; lia)) as Hrun.
        close_run Hrun.
      * destruct (Z.eq_dec rs 0) as [-> | Hnes].
        -- pose proof (wrapped_run _ _ _ _
                         (max17048_get_time_to_full_ok st wc ws Ec Es
                            ltac:(lia) ltac:(lia) ltac:(lia))
                         ltac:(lia)) as Hrun.
           close_run Hrun.
        -- pose proof (wrapped_run _ _ _ _
                         (max17048_get_time_to_full_soc_err st wc rs ws Ec Es
                            ltac:(lia) ltac:(lia) ltac:(lia))
                         ltac:(lia)) as Hrun.
           close_run Hrun.
    + pose proof (wrapped_run _ _ _ _
                    (max17048_get_time_to_full_crate_err st rc wc Ec Hne)
                    ltac:(lia)) as Hrun.
      close_run Hrun.
  - (* not in the table *)
    cbn [In max17048_battery_props] in Hin.
    repeat (destruct Hin as [Hin | Hin]; [discriminate Hin|]).
    exact (False_ind _ Hin).
Qed.

(** C3, amended: for every selector of the dispatch table other than Status,
    a register read the query issues and that fails ends the query: it is the
    last read, the result cell is left untouched, and the read's error code
    is returned as it is, which differs from no-data unless the transport's
    code is itself -ENODATA.  Status never fails: when the c-rate read fails
    the query returns 0 and reports Unknown. *)
Theorem transport_error_surfaces (psp : power_supply_property) (st : state) :
  In psp max17048_battery_props ->
  reading_ok (regmap (drvdata st) MAX17048_VCELL_REG) = true ->
  reading_ok (regmap (drvdata st) MAX17048_SOC_REG) = true ->
  reading_ok (regmap (drvdata st) MAX17048_CRATE_REG) = true ->
  is_u32 (charge_full_design_uah (drvdata st)) = true ->
  (psp <> POWER_SUPPLY_PROP_STATUS ->
   exists ret st' new, surfaces psp st ret st' new)
  /\ (psp = POWER_SUPPLY_PROP_STATUS ->
      exists st',
        max17048_get_property psp st = Some (0, st')
        /\ (fst (regmap (drvdata st) MAX17048_CRATE_REG) <> 0 ->
            intval st' = POWER_SUPPLY_STATUS_UNKNOWN
            /\ query psp st = Value POWER_SUPPLY_STATUS_UNKNOWN
            /\ io_log st'
               = io_log st
                 ++ [(MAX17048_CRATE_REG,
                      fst (regmap (drvdata st) MAX17048_CRATE_REG))])).
Proof.
  intros Hin Hv Hs Hc Hcap.
  split.
  - intros Hns. exact (non_status_surfaces psp st Hin Hns Hv Hs Hc Hcap).
  - intros ->.
    destruct (regmap (drvdata st) MAX17048_SOC_REG) as [rs ws] eqn:Es.
    destruct (regmap (drvdata st) MAX17048_CRATE_REG) as [rc wc] eqn:Ec.
    apply reading_ok_inv in Hs, Hc.
    pose proof (max17048_get_status_run st rc wc rs ws Ec Es
                  ltac:(lia) ltac:(lia) ltac:(lia)) as Hrun.
    assert (Hprop : forall code st1,
              max17048_get_status st = Some (code, st1) ->
              max17048_get_property POWER_SUPPLY_PROP_STATUS st
              = Some (0, with_intval code st1)).
    { intros code st1 H. unfold max17048_get_property, Bind.
      rewrite H. reflexivity. }
    eexists. split; [exact (Hprop _ _ Hrun)|].
    cbn [fst]. intros Hne.
    unfold query, run_answer. rewrite (Hprop _ _ Hrun).
    unfold Spec.status. cbn [fst snd intval with_intval io_log Z.eqb].
    apply Z.eqb_neq in Hne. rewrite Hne. cbn [negb].
    repeat split.
Qed.

Lemma transport_error_surfaces_witness :
  query POWER_SUPPLY_PROP_TIME_TO_EMPTY_NOW
    (sample_state (0, 50000) (- EIO, 0) (0, 65525) 5000000)
  = Failure (- EIO).
Proof.
  assert (Hin : In POWER_SUPPLY_PROP_TIME_TO_EMPTY_NOW max17048_battery_props)
    by (cbn [In max17048_battery_props]; tauto).
  assert (Hns : POWER_SUPPLY_PROP_TIME_TO_EMPTY_NOW
                <> POWER_SUPPLY_PROP_STATUS) by discriminate.
  destruct (proj1 (transport_error_surfaces
                     POWER_SUPPLY_PROP_TIME_TO_EMPTY_NOW
                     (sample_state (0, 50000) (- EIO, 0) (0, 65525) 5000000)
                     Hin eq_refl eq_refl eq_refl eq_refl) Hns)
    as (ret & st' & new & Hrun & Hlog & _ & Hfail).
  vm_compute in Hrun. injection Hrun as <- <-.
  cbn [io_log sample_state app] in Hlog. subst new.
  refine (proj1 (proj2 (proj2 (proj2
            (Hfail MAX17048_SOC_REG (- EIO) _ _))))).
  - right. left. reflexivity.
  - discriminate.
Defined.

(** C3 as stated fails at the Status selector: when the c-rate read fails
    with -EIO the query does not return -EIO; it returns 0 and reports
    Unknown. *)
Lemma status_hides_transport_error :
  In POWER_SUPPLY_PROP_STATUS max17048_battery_props
  /\ regmap (drvdata crate_unreadable) MAX17048_CRATE_REG = (- EIO, 0)
  /\ max17048_get_property POWER_SUPPLY_PROP_STATUS crate_unreadable
     = Some (0, with_intval POWER_SUPPLY_STATUS_UNKNOWN
                  (logged MAX17048_CRATE_REG (- EIO) crate_unreadable))
  /\ query POWER_SUPPLY_PROP_STATUS crate_unreadable
     = Value POWER_SUPPLY_STATUS_UNKNOWN
  /\ query POWER_SUPPLY_PROP_STATUS crate_unreadable <> Failure (- EIO).
Proof.
  split; [left; reflexivity|].
  split; [reflexivity|].
  split; [reflexivity|].
  split; [reflexivity|].
  discriminate.
Qed.

(** A transport that fails with the code -ENODATA cannot be told from the
    no-data outcome: the code is passed on as it is. *)
Remark transport_nodata_code_is_ambiguous :
  regmap (drvdata soc_read_nodata) MAX17048_SOC_REG = (- ENODATA, 0)
  /\ query POWER_SUPPLY_PROP_TIME_TO_EMPTY_NOW soc_read_nodata = NoData.
Proof. split; reflexivity. Qed.

(** * Further properties of the driver *)

(** ** Every query, case by case *)

Lemma drvdata_ok_inv (d : max17048) :
  drvdata_ok d = true ->
  reading_ok (regmap d MAX17048_VCELL_REG) = true
  /\ reading_ok (regmap d MAX17048_SOC_REG) = true
  /\ reading_ok (regmap d MAX17048_CRATE_REG) = true
  /\ 0 <= charge_full_design_uah d < 2 ^ 32.
Proof.
  unfold drvdata_ok. intros H.
  apply andb_prop in H. destruct H as [H H4].
  apply andb_prop in H. destruct H as [H H3].
  apply andb_prop in H. destruct H as [H1 H2].
  apply is_u32_inv in H4. tauto.
Qed.

Lemma run_answer_of_run (m : M state Z) (st st' : state) (ret : Z) :
  m st = Some (ret, st') ->
  run_answer m st = (if ret =? 0 then Value (intval st') else Failure ret).
Proof. intros H. unfold run_answer. rewrite H. reflexivity. Qed.

Ltac use_tests :=
  repeat match goal with
         | H : _ = true |- _ => progress rewrite H
         | H : _ = false |- _ => progress rewrite H
         end.

Ltac describe Hrun :=
  eexists; eexists; unfold described;
  split; [exact Hrun|];
  unfold Metric.reads, Metric.value, Metric.crate_then_soc;
  repeat match goal with
         | H : regmap _ _ = _ |- _ => rewrite H
         end;
  cbn [fst snd drvdata io_log intval logged with_intval negb Z.eqb];
  use_tests;
  cbn [fst snd drvdata io_log intval logged with_intval negb Z.eqb orb andb];
  rewrite <- ?app_assoc;
  repeat split;
  try reflexivity; try (symmetry; apply app_nil_r);
  try (intros; lia); try (unfold ENODATA, EINVAL; lia).

Lemma get_property_described (psp : power_supply_property) (st : state) :
  drvdata_ok (drvdata st) = true ->
  exists ret st', described psp st ret st'.
Proof.
  intros Hok.
  destruct (drvdata_ok_inv _ Hok) as (Hv & Hs & Hc & Hcap).
  destruct (regmap (drvdata st) MAX17048_VCELL_REG) as [rv wv] eqn:Ev.
  destruct (regmap (drvdata st) MAX17048_SOC_REG) as [rs ws] eqn:Es.
  destruct (regmap (drvdata st) MAX17048_CRATE_REG) as [rc wc] eqn:Ec.
  apply reading_ok_inv in Hv, Hs, Hc.
  pose proof (c_rate_range wc ltac:(lia)) as Hrange.
  destruct psp.
  - (* STATUS *)
    pose proof (max17048_get_status_run st rc wc rs ws Ec Es
                  ltac:(lia) ltac:(lia) ltac:(lia)) as Hst.
    assert (Hrun : max17048_get_property POWER_SUPPLY_PROP_STATUS st
                   = Some (0, with_intval (Spec.status (rc, wc) (rs, ws))
                                (if negb (rc =? 0)
                                 then logged MAX17048_CRATE_REG rc st
                                 else if (Spec.c_rate wc >? 4)
                                         || (Spec.c_rate wc <? -4)
                                      then logged MAX17048_CRATE_REG 0 st
                                      else logged MAX17048_SOC_REG rs
                                             (logged MAX17048_CRATE_REG 0 st)))).
    { unfold max17048_get_property, Bind. rewrite Hst. reflexivity. }
    destruct (Z.eqb_spec rc 0) as [-> | Hne]; cbn [negb] in Hrun.
    + destruct ((Spec.c_rate wc >? 4) || (Spec.c_rate wc <? -4)) eqn:Eband;
        describe Hrun.
    + assert (Hb : (rc =? 0) = false) by (apply Z.eqb_neq; exact Hne).
      describe Hrun.
  - (* VOLTAGE_NOW *)
    destruct (Z.eq_dec rv 0) as [-> | Hne].
    + pose proof (query_voltage_now st wv Ev ltac:(lia)) as Hrun.
      describe Hrun.
    + assert (Hrun : max17048_get_property POWER_SUPPLY_PROP_VOLTAGE_NOW st
                     = Some (rv, logged MAX17048_VCELL_REG rv st)).
      { unfold max17048_get_property, Bind.
        rewrite (max17048_get_vcell_err st rv wv Ev Hne).
        assert (Hlt : (rv <? 0) = true) by (apply Z.ltb_lt; lia).
        rewrite Hlt. reflexivity. }
      assert (Hb : (rv =? 0) = false) by (apply Z.eqb_neq; exact Hne).
      describe Hrun.
  - (* CAPACITY *)
    destruct (Z.eq_dec rs 0) as [-> | Hne].
    + pose proof (query_capacity st ws Es ltac:(lia)) as Hrun.
      describe Hrun.
    + assert (Hrun : max17048_get_property POWER_SUPPLY_PROP_CAPACITY st
                     = Some (rs, logged MAX17048_SOC_REG rs st)).
      { unfold max17048_get_property, Bind.
        rewrite (max17048_get_soc_err st rs ws Es Hne).
        assert (Hlt : (rs <? 0) = true) by (apply Z.ltb_lt; lia).
        rewrite Hlt. reflexivity. }
      assert (Hb : (rs =? 0) = false) by (apply Z.eqb_neq; exact Hne).
      describe Hrun.
  - (* CHARGE_FULL_DESIGN *)
    assert (Hrun : max17048_get_property
                     POWER_SUPPLY_PROP_CHARGE_FULL_DESIGN st
                   = Some (0, with_intval
                                (s32 (charge_full_design_uah (drvdata st)))
                                st))
      by reflexivity.
    describe Hrun.
  - (* CHARGE_NOW *)
    destruct (Z.eq_dec rs 0) as [-> | Hne].
    + pose proof (charge_now_ok st ws Es ltac:(lia) Hcap) as Hrun.
      describe Hrun.
    + assert (Hrun : max17048_get_property POWER_SUPPLY_PROP_CHARGE_NOW st
                     = Some (rs, logged MAX17048_SOC_REG rs st)).
      { unfold max17048_get_property, Bind.
        rewrite (max17048_get_soc_err st rs ws Es Hne).
        assert (Hlt : (rs <? 0) = true) by (apply Z.ltb_lt; lia).
        rewrite Hlt. reflexivity. }
      assert (Hb : (rs =? 0) = false) by (apply Z.eqb_neq; exact Hne).
      describe Hrun.
  - (* ENERGY_FULL_DESIGN *)
    assert (Hrun : max17048_get_property
                     POWER_SUPPLY_PROP_ENERGY_FULL_DESIGN st
                   = Some (0, with_intval
                                (s32 (energy_full_design_uwh (drvdata st)))
                                st))
      by reflexivity.
    describe Hrun.
  - (* TECHNOLOGY *)
    assert (Hrun : max17048_get_property POWER_SUPPLY_PROP_TECHNOLOGY st
                   = Some (0, with_intval POWER_SUPPLY_TECHNOLOGY_LIPO st))
      by reflexivity.
    describe Hrun.
  - (* CURRENT_NOW *)
    destruct (Z.eq_dec rc 0) as [-> | Hne].
    + pose proof (wrapped_run _ _ _ _
                    (max17048_get_current_ok st wc Ec ltac:(lia) Hcap)
                    ltac:(lia)) as Hrun.
      describe Hrun.
    + pose proof (wrapped_run _ _ _ _
                    (max17048_get_current_err st rc wc Ec Hne)
                    ltac:(lia)) as Hrun.
      assert (Hb : (rc =? 0) = false) by (apply Z.eqb_neq; exact Hne).
      describe Hrun.
  - (* TIME_TO_EMPTY_NOW *)
    destruct (Z.eq_dec rc 0) as [-> | Hne].
    + pose proof (proj1 (time_to_empty_answer st wc rs ws Ec Es
                           ltac:(lia) ltac:(lia) ltac:(lia) Hcap)) as Hans.
      destruct (Z_le_gt_dec (-10) (Spec.c_rate wc)) as [Hge | Hlt].
      * pose proof (max17048_get_time_to_empty_nodata st wc Ec
                      ltac:(lia) Hge) as Hfn.
        pose proof (wrapped_run _ _ _ _ Hfn ltac:(unfold ENODATA; lia))
          as Hrun.
        rewrite (run_answer_of_run _ _ _ _ Hfn) in Hans.
        assert (Hb : (Spec.c_rate wc >=? -10) = true)
          by (apply Z.geb_le; exact Hge).
        describe Hrun. exact Hans.
      * assert (Hb : (Spec.c_rate wc >=? -10) = false)
          by (apply geb_false; lia).
        destruct (Z.eq_dec rs 0) as [-> | Hnes].
        -- pose proof (max17048_get_time_to_empty_ok st wc ws Ec Es
                         ltac:(lia) ltac:(lia) Hcap ltac:(lia)) as Hfn.
           pose proof (wrapped_run _ _ _ _ Hfn ltac:(lia)) as Hrun.
           rewrite (run_answer_of_run _ _ _ _ Hfn) in Hans.
           describe Hrun. exact Hans.
        -- pose proof (max17048_get_time_to_empty_soc_err st wc rs ws Ec Es
                         ltac:(lia) ltac:(lia) ltac:(lia)) as Hfn.
           pose proof (wrapped_run _ _ _ _ Hfn ltac:(lia)) as Hrun.
           rewrite (run_answer_of_run _ _ _ _ Hfn) in Hans.
           describe Hrun. exact Hans.
    + pose proof (wrapped_run _ _ _ _
                    (max17048_get_time_to_empty_crate_err st rc wc Ec Hne)
                    ltac:(lia)) as Hrun.
      assert (Hb : (rc =? 0) = false) by (apply Z.eqb_neq; exact Hne).
      describe Hrun.
  - (* TIME_TO_FULL_NOW *)
    destruct (Z.eq_dec rc 0) as [-> | Hne].
    + pose proof (proj1 (time_to_full_answer st wc rs ws Ec Es
                           ltac:(lia) ltac:(lia) ltac:(lia))) as Hans.
      destruct (Z_le_gt_dec (Spec.c_rate wc) 10) as [Hle | Hgt].
      * pose proof (max17048_get_time_to_full_nodata st wc Ec
                      ltac:(lia) Hle) as Hfn.
        pose proof (wrapped_run _ _ _ _ Hfn ltac:(unfold ENODATA; lia))
          as Hrun.
        rewrite (run_answer_of_run _ _ _ _ Hfn) in Hans.
        assert (Hb : (Spec.c_rate wc <=? 10) = true)
          by (apply Z.leb_le; exact Hle).
        describe Hrun. exact Hans.
      * assert (Hb : (Spec.c_rate wc <=? 10) = false)
          by (apply Z.leb_gt; lia).
        destruct (Z.eq_dec rs 0) as [-> | Hnes].
        -- pose proof (max17048_get_time_to_full_ok st wc ws Ec Es
                         ltac:(lia) ltac:(lia) ltac:(lia)) as Hfn.
           pose proof (wrapped_run _ _ _ _ Hfn ltac:(lia)) as Hrun.
           rewrite (run_answer_of_run _ _ _ _ Hfn) in Hans.
           describe Hrun. exact Hans.
        -- pose proof (max17048_get_time_to_full_soc_err st wc rs ws Ec Es
                         ltac:(lia) ltac:(lia) ltac:(lia)) as Hfn.
           pose proof (wrapped_run _ _ _ _ Hfn ltac:(lia)) as Hrun.
           rewrite (run_answer_of_run _ _ _ _ Hfn) in Hans.
           describe Hrun. exact Hans.
    + pose proof (wrapped_run _ _ _ _
                    (max17048_get_time_to_full_crate_err st rc wc Ec Hne)
                    ltac:(lia)) as Hrun.
      assert (Hb : (rc =? 0) = false) by (apply Z.eqb_neq; exact Hne).
      describe Hrun.
  - (* any other selector *)
    assert (Hrun : max17048_get_property (POWER_SUPPLY_PROP_OTHER n) st
                   = Some (- EINVAL, st)) by reflexivity.
    describe Hrun.
Qed.

Lemma query_value (psp : power_supply_property) (st : state) :
  drvdata_ok (drvdata st) = true ->
  query psp st = Metric.value psp (drvdata st).
Proof.
  intros Hok.
  destruct (get_property_described psp st Hok)
    as (ret & st' & Hrun & _ & _ & Hval & _).
  unfold query. rewrite (run_answer_of_run _ _ _ _ Hrun). exact Hval.
Qed.

(** ** No hidden state *)

(** X1: the answer of a query depends on the driver data alone, not on what
    the result cell or the read log hold; so a query that ran before, with
    any selector, changes no later answer. *)
Theorem query_unaffected_by_earlier_query
    (psp1 psp2 : power_supply_property) (st st' : state) (ret : Z) :
  drvdata_ok (drvdata st) = true ->
  max17048_get_property psp1 st = Some (ret, st') ->
  query psp2 st' = query psp2 st
  /\ (forall st2, drvdata st2 = drvdata st -> query psp2 st2 = query psp2 st).
Proof.
  intros Hok Hrun.
  pose proof (preserves_get_property psp1 st ret st' Hrun) as Hd.
  split.
  - rewrite (query_value psp2 st') by (rewrite Hd; exact Hok).
    rewrite (query_value psp2 st Hok). rewrite Hd. reflexivity.
  - intros st2 H2.
    rewrite (query_value psp2 st2) by (rewrite H2; exact Hok).
    rewrite (query_value psp2 st Hok). rewrite H2. reflexivity.
Qed.

Lemma query_unaffected_by_earlier_query_witness :
  query POWER_SUPPLY_PROP_TIME_TO_EMPTY_NOW
    (with_intval POWER_SUPPLY_STATUS_DISCHARGING
       (logged MAX17048_CRATE_REG 0
          (sample_state (0, 50000) (0, 12800) (0, 65525) 5000000)))
  = query POWER_SUPPLY_PROP_TIME_TO_EMPTY_NOW
      (sample_state (0, 50000) (0, 12800) (0, 65525) 5000000).
Proof.
  exact (proj1 (query_unaffected_by_earlier_query
                  POWER_SUPPLY_PROP_STATUS POWER_SUPPLY_PROP_TIME_TO_EMPTY_NOW
                  (sample_state (0, 50000) (0, 12800) (0, 65525) 5000000)
                  _ 0 eq_refl eq_refl)).
Defined.

(** ** Return codes and the result cell *)

(** X2: no query can crash, whatever the capacity (0 included); it returns 0
    or a negative code, never a positive one; it leaves the driver data as
    they were; and whenever it returns a non-zero code (transport error, no
    data, invalid selector) the result cell keeps its previous content. *)
Theorem failing_query_keeps_result_cell
    (psp : power_supply_property) (st : state) :
  drvdata_ok (drvdata st) = true ->
  query psp st <> Crash
  /\ exists ret st',
       max17048_get_property psp st = Some (ret, st')
       /\ ret <= 0
       /\ drvdata st' = drvdata st
       /\ (ret <> 0 -> intval st' = intval st /\ query psp st = Failure ret).
Proof.
  intros Hok.
  destruct (get_property_described psp st Hok)
    as (ret & st' & Hrun & Hd & _ & _ & Hcell & Hle).
  split.
  - unfold query, run_answer. rewrite Hrun.
    destruct (ret =? 0); discriminate.
  - exists ret, st'. repeat split; try assumption.
    + exact (Hcell H).
    + unfold query. rewrite (run_answer_of_run _ _ _ _ Hrun).
      apply Z.eqb_neq in H. rewrite H. reflexivity.
Qed.

Lemma failing_query_keeps_result_cell_witness :
  query POWER_SUPPLY_PROP_TIME_TO_EMPTY_NOW
    (sample_state (0, 50000) (0, 12800) (0, 65525) 0) <> Crash.
Proof.
  exact (proj1 (failing_query_keeps_result_cell
                  POWER_SUPPLY_PROP_TIME_TO_EMPTY_NOW
                  (sample_state (0, 50000) (0, 12800) (0, 65525) 0)
                  eq_refl)).
Defined.

(** ** The property table and the switch *)

Lemma in_table_or_other (psp : power_supply_property) :
  In psp max17048_battery_props
  \/ exists n, psp = POWER_SUPPLY_PROP_OTHER n.
Proof.
  destruct psp; cbn [In max17048_battery_props];
    try (left; tauto).
  right. exists n. reflexivity.
Qed.

Lemma other_not_in_table (n : nat) :
  ~ In (POWER_SUPPLY_PROP_OTHER n) max17048_battery_props.
Proof.
  cbn [In max17048_battery_props]. intros H.
  repeat (destruct H as [H | H]; [discriminate H|]). exact H.
Qed.

(** X3: the switch serves exactly the selectors the driver advertises in
    [max17048_battery_props].  A selector of the table is never answered
    with -EINVAL (unless a register read itself fails with that code), and
    any other selector gets -EINVAL without a register read and without a
    change to the result cell. *)
Theorem props_table_matches_switch
    (psp : power_supply_property) (st : state) :
  drvdata_ok (drvdata st) = true ->
  fst (regmap (drvdata st) MAX17048_VCELL_REG) <> - EINVAL ->
  fst (regmap (drvdata st) MAX17048_SOC_REG) <> - EINVAL ->
  fst (regmap (drvdata st) MAX17048_CRATE_REG) <> - EINVAL ->
  (In psp max17048_battery_props <-> query psp st <> Failure (- EINVAL))
  /\ (~ In psp max17048_battery_props ->
      max17048_get_property psp st = Some (- EINVAL, st)).
Proof.
  intros Hok Hv Hs Hc.
  assert (Hother : forall n st0,
            max17048_get_property (POWER_SUPPLY_PROP_OTHER n) st0
            = Some (- EINVAL, st0)) by reflexivity.
  assert (Hin : In psp max17048_battery_props ->
                query psp st <> Failure (- EINVAL)).
  { intros Hin. rewrite (query_value psp st Hok).
    destruct (regmap (drvdata st) MAX17048_VCELL_REG) as [rv wv] eqn:Ev.
    destruct (regmap (drvdata st) MAX17048_SOC_REG) as [rs ws] eqn:Es.
    destruct (regmap (drvdata st) MAX17048_CRATE_REG) as [rc wc] eqn:Ec.
    cbn [fst] in Hv, Hs, Hc.
    destruct psp;
      try (exfalso; exact (other_not_in_table _ Hin));
      unfold Metric.value, Spec.time_to_empty, Spec.time_to_full, NoData;
      rewrite ?Ev, ?Es, ?Ec; cbn [fst snd];
      repeat match goal with
             | |- context [if ?b then _ else _] => destruct b
             end;
      intros [= Heq]; try contradiction; try discriminate Heq;
      unfold ENODATA, EINVAL in *; lia. }
  split.
  - split; [exact Hin|].
    intros Hne. destruct (in_table_or_other psp) as [H | [n ->]];
      [exact H|].
    exfalso. apply Hne. unfold query, run_answer. rewrite Hother.
    reflexivity.
  - intros Hnot. destruct (in_table_or_other psp) as [H | [n ->]];
      [contradiction | apply Hother].
Qed.

Lemma props_table_matches_switch_witness :
  max17048_get_property (POWER_SUPPLY_PROP_OTHER 0)
    (sample_state (0, 50000) (0, 12800) (0, 65525) 5000000)
  = Some (- EINVAL, sample_state (0, 50000) (0, 12800) (0, 65525) 5000000).
Proof.
  refine (proj2 (props_table_matches_switch
                   (POWER_SUPPLY_PROP_OTHER 0)
                   (sample_state (0, 50000) (0, 12800) (0, 65525) 5000000)
                   eq_refl _ _ _) (other_not_in_table 0));
    discriminate.
Defined.

(** ** The design metrics *)

Lemma probed_energy_range (charge : Z) (uwh : option Z) :
  0 < charge <= 100000000 ->
  0 < probed_energy charge uwh <= 370000000.
Proof.
  intros Hc. unfold probed_energy.
  rewrite (u64_small charge) by lia.
  rewrite (u64_small (charge * 37)) by lia.
  assert (Hq : 3 <= charge * 37 / 10 <= 370000000).
  { split; [apply Z.div_le_lower_bound; lia|].
    apply Z.div_le_upper_bound; lia. }
  rewrite (u32_small (charge * 37 / 10)) by lia.
  set (e0 := match uwh with Some w => u32 w | None => 0 end).
  assert (He0 : 0 <= e0)
    by (subst e0; destruct uwh; [apply u32_range | lia]).
  cbv zeta.
  set (e1 := if match uwh with Some _ => e0 =? 0 | None => true end
             then charge * 37 / 10 else e0).
  assert (He1 : 0 < e1).
  { subst e1. destruct uwh; [|lia].
    destruct (Z.eqb_spec e0 0); lia. }
  destruct (Z.gtb_spec e1 370000000); lia.
Qed.

(** X4: after a successful attach the two design metrics and the technology
    are answered without any register read, so they succeed even when the
    sensor cannot be read at all; both design values are positive and fit
    the int result, so the values reported are exactly the ones the probe
    stored (capacity at most 100,000,000, energy at most 370,000,000). *)
Theorem design_metrics_need_no_bus
    (client : i2c_client) (desc : max17048) (st : state) :
  attach client = Some (0, desc) ->
  charge_full_design_uah (drvdata st) = charge_full_design_uah desc ->
  energy_full_design_uwh (drvdata st) = energy_full_design_uwh desc ->
  max17048_get_property POWER_SUPPLY_PROP_CHARGE_FULL_DESIGN st
  = Some (0, with_intval (charge_full_design_uah desc) st)
  /\ max17048_get_property POWER_SUPPLY_PROP_ENERGY_FULL_DESIGN st
     = Some (0, with_intval (energy_full_design_uwh desc) st)
  /\ max17048_get_property POWER_SUPPLY_PROP_TECHNOLOGY st
     = Some (0, with_intval POWER_SUPPLY_TECHNOLOGY_LIPO st)
  /\ 0 < charge_full_design_uah desc <= 100000000
  /\ 0 < energy_full_design_uwh desc <= 370000000.
Proof.
  intros Hat Hcap Hen.
  destruct (attach_success client desc Hat) as [Hc He].
  pose proof (probed_charge_range
                (properties client "charge-full-design-microamp-hours")
                (properties client "battery-capacity")) as Hrc.
  rewrite <- Hc in Hrc.
  pose proof (probed_energy_range (charge_full_design_uah desc)
                (properties client "energy-full-design-microwatt-hours")
                Hrc) as Hre.
  rewrite <- Hc in He. rewrite <- He in Hre.
  unfold max17048_get_property, Bind, get_battery, set_intval, Ret.
  rewrite Hcap, Hen.
  rewrite (s32_small (charge_full_design_uah desc)) by lia.
  rewrite (s32_small (energy_full_design_uwh desc)) by lia.
  repeat split; lia.
Qed.

Lemma design_metrics_need_no_bus_witness :
  max17048_get_property POWER_SUPPLY_PROP_ENERGY_FULL_DESIGN
    (sample_state (- EIO, 0) (- EIO, 0) (- EIO, 0) 5000000)
  = Some (0, with_intval 18500000
               (sample_state (- EIO, 0) (- EIO, 0) (- EIO, 0) 5000000)).
Proof.
  exact (proj1 (proj2 (design_metrics_need_no_bus
                         (sample_client None None None)
                         (sample_desc 5000000 18500000)
                         (sample_state (- EIO, 0) (- EIO, 0) (- EIO, 0) 5000000)
                         eq_refl eq_refl eq_refl))).
Defined.

(** ** Charge now *)

(** X5: ChargeNow is the state of charge as a share of the designed
    capacity, soc * capacity / 100 with truncating division.  For a capacity
    that fits an int it is reported exactly, lies between 0 and the designed
    capacity, is 0 below one percent and equals the designed capacity from
    100 percent on; it never decreases when the SOC register grows.  When
    the SOC read fails its code is returned. *)
Theorem charge_now_share_of_design (st : state) (soc_rd : reading) :
  regmap (drvdata st) MAX17048_SOC_REG = soc_rd ->
  reading_ok soc_rd = true ->
  0 <= charge_full_design_uah (drvdata st) <= INT_MAX ->
  let cap := charge_full_design_uah (drvdata st) in
  let share := fun s => Z.quot (Spec.soc_percent s * cap) 100 in
  (fst soc_rd <> 0 ->
   query POWER_SUPPLY_PROP_CHARGE_NOW st = Failure (fst soc_rd))
  /\ (fst soc_rd = 0 ->
      query POWER_SUPPLY_PROP_CHARGE_NOW st = Value (share (snd soc_rd)))
  /\ 0 <= share (snd soc_rd) <= cap
  /\ (snd soc_rd < 256 -> share (snd soc_rd) = 0)
  /\ (25600 <= snd soc_rd -> share (snd soc_rd) = cap)
  /\ (forall s, snd soc_rd <= s -> share (snd soc_rd) <= share s).
Proof.
  destruct soc_rd as [rs ws]. intros Es Hok Hcap cap share.
  apply reading_ok_inv in Hok. unfold INT_MAX in Hcap. cbn [fst snd].
  fold cap in Hcap.
  assert (Hshare : forall s, 0 <= share s <= cap).
  { intros s. unfold share. pose proof (soc_percent_range s) as Hs.
    split; [apply Z.quot_pos; nia|].
    apply Z.quot_le_upper_bound; nia. }
  split.
  { intros Hne. unfold query, run_answer, max17048_get_property, Bind.
    rewrite (max17048_get_soc_err st rs ws Es Hne).
    assert (Hlt : (rs <? 0) = true) by (apply Z.ltb_lt; lia).
    rewrite Hlt. unfold Ret.
    apply Z.eqb_neq in Hne. rewrite Hne. reflexivity. }
  split.
  { intros ->. unfold query, run_answer.
    rewrite (charge_now_ok st ws Es ltac:(lia) ltac:(fold cap; lia)).
    cbn [Z.eqb intval with_intval]. fold cap. fold (share ws).
    rewrite s32_small; [reflexivity|]. specialize (Hshare ws). lia. }
  split; [apply Hshare|].
  split.
  { intros Hlt. unfold share, Spec.soc_percent, Spec.clamp_percent.
    rewrite (Z.div_small ws 256) by lia. reflexivity. }
  split.
  { intros Hge. unfold share, Spec.soc_percent, Spec.clamp_percent.
    assert (100 <= ws / 256) by (apply Z.div_le_lower_bound; lia).
    destruct (Z.ltb_spec (ws / 256) 0); [lia|].
    destruct (Z.gtb_spec (ws / 256) 100).
    + rewrite Z.mul_comm. apply Z.quot_mul. lia.
    + replace (ws / 256) with 100 by lia.
      rewrite Z.mul_comm. apply Z.quot_mul. lia. }
  intros s Hle. unfold share.
  apply Z.quot_le_mono; [lia|].
  apply Z.mul_le_mono_nonneg_r; [lia|].
  unfold Spec.soc_percent, Spec.clamp_percent.
  assert (Hd : ws / 256 <= s / 256) by (apply Z.div_le_mono; lia).
  assert (H0 : 0 <= ws / 256) by (apply Z.div_pos; lia).
  destruct (Z.ltb_spec (ws / 256) 0); [lia|].
  destruct (Z.ltb_spec (s / 256) 0); [lia|].
  destruct (Z.gtb_spec (ws / 256) 100);
    destruct (Z.gtb_spec (s / 256) 100); lia.
Qed.

Lemma charge_now_share_of_design_witness :
  query POWER_SUPPLY_PROP_CHARGE_NOW
    (sample_state (0, 50000) (0, 23040) (0, 11) 5000000)
  = Value 4500000.
Proof.
  exact (proj1 (proj2 (charge_now_share_of_design
                         (sample_state (0, 50000) (0, 23040) (0, 11) 5000000)
                         (0, 23040) eq_refl eq_refl
                         ltac:(split; [vm_compute | vm_compute];
                               discriminate)))
               eq_refl).
Defined.

(** ** Status and the time estimates *)

Ltac split_ifs :=
  repeat match goal with
         | |- context [if ?b then _ else _] => destruct b eqn:?
         | H : context [if ?b then _ else _] |- _ => destruct b eqn:?
         end.

Ltac tests_to_props :=
  repeat match goal with
         | H : (_ >? _) = true |- _ => apply Z.gtb_lt in H
         | H : (_ >? _) = false |- _ =>
             rewrite Z.gtb_ltb in H; apply Z.ltb_ge in H
         | H : (_ <? _) = true |- _ => apply Z.ltb_lt in H
         | H : (_ <? _) = false |- _ => apply Z.ltb_ge in H
         | H : (_ <=? _) = true |- _ => apply Z.leb_le in H
         | H : (_ <=? _) = false |- _ => apply Z.leb_gt in H
         | H : (_ >=? _) = true |- _ => apply Z.geb_le in H
         | H : (_ >=? _) = false |- _ =>
             rewrite Z.geb_leb in H; apply Z.leb_gt in H
         | H : (_ =? _) = true |- _ => apply Z.eqb_eq in H
         | H : (_ =? _) = false |- _ => apply Z.eqb_neq in H
         | H : (_ || _) = true |- _ => apply orb_prop in H; destruct H
         | H : (_ || _) = false |- _ =>
             apply orb_false_elim in H; destruct H
         | H : (_ && _) = true |- _ => apply andb_prop in H; destruct H
         | H : negb _ = true |- _ => apply negb_true_iff in H
         | H : negb _ = false |- _ => apply negb_false_iff in H
         end.

(** X6: on one snapshot the time estimates agree with the status.  When
    TimeToEmpty gives a value the status is Discharging and TimeToFull has
    no data; when TimeToFull gives a value the status is Charging and
    TimeToEmpty has no data; and when the status is Full or NotCharging both
    estimates have no data. *)
Theorem time_estimates_agree_with_status (st : state) :
  drvdata_ok (drvdata st) = true ->
  let status := query POWER_SUPPLY_PROP_STATUS st in
  let tte := query POWER_SUPPLY_PROP_TIME_TO_EMPTY_NOW st in
  let ttf := query POWER_SUPPLY_PROP_TIME_TO_FULL_NOW st in
  (forall v, tte = Value v ->
     status = Value POWER_SUPPLY_STATUS_DISCHARGING /\ ttf = NoData)
  /\ (forall v, ttf = Value v ->
        status = Value POWER_SUPPLY_STATUS_CHARGING /\ tte = NoData)
  /\ (status = Value POWER_SUPPLY_STATUS_FULL
      \/ status = Value POWER_SUPPLY_STATUS_NOT_CHARGING ->
      tte = NoData /\ ttf = NoData).
Proof.
  intros Hok status tte ttf. subst status tte ttf.
  rewrite !(query_value _ st Hok).
  destruct (drvdata_ok_inv _ Hok) as (_ & Hs & Hc & _).
  unfold Metric.value, Spec.status, Spec.time_to_empty, Spec.time_to_full,
    NoData.
  destruct (regmap (drvdata st) MAX17048_SOC_REG) as [rs ws].
  destruct (regmap (drvdata st) MAX17048_CRATE_REG) as [rc wc].
  apply reading_ok_inv in Hs, Hc. cbn [fst snd].
  set (crate := Spec.c_rate wc).
  unfold POWER_SUPPLY_STATUS_DISCHARGING, POWER_SUPPLY_STATUS_CHARGING,
    POWER_SUPPLY_STATUS_FULL, POWER_SUPPLY_STATUS_NOT_CHARGING,
    POWER_SUPPLY_STATUS_UNKNOWN.
  split; [|split].
  - intros v H. split_ifs; tests_to_props;
      try discriminate H; try (split; reflexivity); exfalso; lia.
  - intros v H. split_ifs; tests_to_props;
      try discriminate H; try (split; reflexivity); exfalso; lia.
  - intros [H | H]; split_ifs; tests_to_props;
      try discriminate H; try (split; reflexivity); exfalso; lia.
Qed.

Lemma time_estimates_agree_with_status_witness :
  query POWER_SUPPLY_PROP_STATUS
    (sample_state (0, 50000) (0, 12800) (0, 65525) 5000000)
  = Value POWER_SUPPLY_STATUS_DISCHARGING
  /\ query POWER_SUPPLY_PROP_TIME_TO_FULL_NOW
       (sample_state (0, 50000) (0, 12800) (0, 65525) 5000000)
     = NoData.
Proof.
  exact (proj1 (time_estimates_agree_with_status
                  (sample_state (0, 50000) (0, 12800) (0, 65525) 5000000)
                  eq_refl) 30906 eq_refl).
Defined.

(** ** Use of the bus *)

(** X7: a query issues at most two register reads and never reads a
    register twice.  Every read is of VCELL, SOC or CRATE and is logged with
    the code the sensor gave; VCELL is read by VoltageNow only; and when two
    registers are read, the first is CRATE, it succeeded, and the second is
    SOC. *)
Theorem reads_are_few_and_ordered
    (psp : power_supply_property) (st st' : state) (ret : Z) :
  drvdata_ok (drvdata st) = true ->
  max17048_get_property psp st = Some (ret, st') ->
  exists new,
    io_log st' = io_log st ++ new
    /\ (List.length new <= 2)%nat
    /\ NoDup (map fst new)
    /\ (forall reg e, In (reg, e) new ->
        (reg = MAX17048_VCELL_REG \/ reg = MAX17048_SOC_REG
         \/ reg = MAX17048_CRATE_REG)
        /\ fst (regmap (drvdata st) reg) = e
        /\ (reg = MAX17048_VCELL_REG -> psp = POWER_SUPPLY_PROP_VOLTAGE_NOW))
    /\ (List.length new = 2%nat ->
        new = [(MAX17048_CRATE_REG, 0);
               (MAX17048_SOC_REG,
                fst (regmap (drvdata st) MAX17048_SOC_REG))]).
Proof.
  intros Hok Hrun.
  destruct (get_property_described psp st Hok)
    as (ret0 & st0 & Hrun0 & _ & Hlog & _).
  rewrite Hrun in Hrun0. injection Hrun0 as <- <-.
  exists (Metric.reads psp (drvdata st)).
  split; [exact Hlog|].
  set (P := fun new : list (Z * Z) =>
         (List.length new <= 2)%nat
         /\ NoDup (map fst new)
         /\ (forall reg e, In (reg, e) new ->
             (reg = MAX17048_VCELL_REG \/ reg = MAX17048_SOC_REG
              \/ reg = MAX17048_CRATE_REG)
             /\ fst (regmap (drvdata st) reg) = e
             /\ (reg = MAX17048_VCELL_REG ->
                 psp = POWER_SUPPLY_PROP_VOLTAGE_NOW))
         /\ (List.length new = 2%nat ->
             new = [(MAX17048_CRATE_REG, 0);
                    (MAX17048_SOC_REG,
                     fst (regmap (drvdata st) MAX17048_SOC_REG))])).
  change (P (Metric.reads psp (drvdata st))).
  assert (Hnil : P []).
  { unfold P. cbn [List.length map In].
    split; [lia|]. split; [constructor|].
    split; [intros reg e []|discriminate]. }
  assert (Hone : forall reg,
            (reg = MAX17048_VCELL_REG \/ reg = MAX17048_SOC_REG
             \/ reg = MAX17048_CRATE_REG) ->
            (reg = MAX17048_VCELL_REG ->
             psp = POWER_SUPPLY_PROP_VOLTAGE_NOW) ->
            P [(reg, fst (regmap (drvdata st) reg))]).
  { intros reg Hreg Hv. unfold P. cbn [List.length map fst In].
    split; [lia|].
    split; [constructor; [intros []|constructor]|].
    split; [|discriminate].
    intros r e [[= <- <-] | []]. repeat split; assumption. }
  assert (Htwo : forall skip, P (Metric.crate_then_soc skip (drvdata st))).
  { intros skip. unfold Metric.crate_then_soc.
    destruct (Z.eqb_spec (fst (regmap (drvdata st) MAX17048_CRATE_REG)) 0)
      as [Hz | Hnz]; cbn [negb].
    - destruct (skip _).
      + rewrite <- Hz at 1.
        apply Hone; [right; right; reflexivity | discriminate].
      + unfold P. cbn [List.length map fst In].
        split; [lia|].
        split.
        { constructor; [|constructor; [intros []|constructor]].
          cbn [In]. intros [H | []]. discriminate H. }
        split; [|reflexivity].
        intros reg e [[= <- <-] | [[= <- <-] | []]].
        * split; [right; right; reflexivity|].
          split; [exact Hz | discriminate].
        * split; [right; left; reflexivity|].
          split; [reflexivity | discriminate].
    - apply Hone; [right; right; reflexivity | discriminate]. }
  destruct psp; cbn [Metric.reads];
    first [ exact Hnil
          | apply Htwo
          | apply Hone; [tauto | first [ reflexivity | discriminate ]] ].
Qed.

Lemma reads_are_few_and_ordered_witness :
  exists new,
    io_log (with_intval 30906
              (logged MAX17048_SOC_REG 0
                 (logged MAX17048_CRATE_REG 0
                    (sample_state (0, 50000) (0, 12800) (0, 65525) 5000000))))
    = io_log (sample_state (0, 50000) (0, 12800) (0, 65525) 5000000) ++ new
    /\ (List.length new <= 2)%nat.
Proof.
  destruct (reads_are_few_and_ordered
              POWER_SUPPLY_PROP_TIME_TO_EMPTY_NOW
              (sample_state (0, 50000) (0, 12800) (0, 65525) 5000000)
              _ 0 eq_refl eq_refl) as (new & Hlog & Hlen & _).
  exists new. split; [exact Hlog | exact Hlen].
Defined.

(** ** Direction of the current *)

Lemma current_uA_opp (cap c : Z) :
  Spec.current_uA cap (- c) = - Spec.current_uA cap c.
Proof.
  unfold Spec.current_uA.
  replace (cap * - c * 52) with (- (cap * c * 52)) by lia.
  apply Z.quot_opp_l. lia.
Qed.

Lemma current_uA_mono (cap c1 c2 : Z) :
  0 <= cap -> c1 <= c2 -> Spec.current_uA cap c1 <= Spec.current_uA cap c2.
Proof.
  intros Hcap Hle. unfold Spec.current_uA.
  apply Z.quot_le_mono; [lia|]. nia.
Qed.

(** X8: for a designed capacity between 97 and 31,500,000 uAh (the default
    5,000,000 among them) the current reported has the direction the status
    reports: positive when the status is Charging, negative when it is
    Discharging, and 0 at c-rate 0.  The current never decreases when the
    c-rate grows, and opposite c-rates give opposite currents. *)
Theorem current_follows_direction (st : state) (wc : Z) :
  drvdata_ok (drvdata st) = true ->
  regmap (drvdata st) MAX17048_CRATE_REG = (0, wc) ->
  97 <= charge_full_design_uah (drvdata st) <= 31500000 ->
  let cap := charge_full_design_uah (drvdata st) in
  let crate := Spec.c_rate wc in
  exists v,
    query POWER_SUPPLY_PROP_CURRENT_NOW st = Value v
    /\ v = Spec.current_uA cap crate
    /\ (query POWER_SUPPLY_PROP_STATUS st
        = Value POWER_SUPPLY_STATUS_CHARGING -> 0 < v)
    /\ (query POWER_SUPPLY_PROP_STATUS st
        = Value POWER_SUPPLY_STATUS_DISCHARGING -> v < 0)
    /\ (crate = 0 -> v = 0)
    /\ (forall c, crate <= c -> v <= Spec.current_uA cap c)
    /\ Spec.current_uA cap (- crate) = - v.
Proof.
  intros Hok Ec Hcap cap crate.
  destruct (drvdata_ok_inv _ Hok) as (_ & Hs & Hc & _).
  rewrite Ec in Hc. apply reading_ok_inv in Hc.
  pose proof (c_rate_range wc ltac:(lia)) as Hr. fold crate in Hr.
  fold cap in Hcap.
  exists (Spec.current_uA cap crate).
  assert (Hfit : s32 (Spec.current_uA cap crate) = Spec.current_uA cap crate).
  { apply s32_small.
    pose proof (current_uA_bound cap crate (31500000 * 32768)
                  ltac:(lia) ltac:(nia)) as Hb.
    assert (Z.quot (31500000 * 32768 * 52) 25000 < 2 ^ 31)
      by (vm_compute; reflexivity).
    lia. }
  split.
  { rewrite (query_value _ st Hok). unfold Metric.value.
    rewrite Ec. cbn [fst snd Z.eqb]. fold cap. fold crate.
    rewrite Hfit. reflexivity. }
  split; [reflexivity|].
  rewrite (query_value _ st Hok). unfold Metric.value, Spec.status.
  rewrite Ec. cbn [fst snd Z.eqb negb]. fold crate.
  unfold POWER_SUPPLY_STATUS_DISCHARGING, POWER_SUPPLY_STATUS_CHARGING,
    POWER_SUPPLY_STATUS_FULL, POWER_SUPPLY_STATUS_NOT_CHARGING.
  split.
  { intros H.
    assert (Hgt : 4 < crate).
    { destruct (Z.gtb_spec crate 4); [assumption|].
      destruct (crate <? -4); [discriminate H|].
      destruct (_ && _); discriminate H. }
    unfold Spec.current_uA.
    assert (1 <= Z.quot (cap * crate * 52) 25000); [|lia].
    apply Z.quot_le_lower_bound; nia. }
  split.
  { intros H.
    assert (Hlt : crate < -4).
    { destruct (Z.gtb_spec crate 4); [discriminate H|].
      destruct (Z.ltb_spec crate (-4)); [assumption|].
      destruct (_ && _); discriminate H. }
    pose proof (current_uA_opp cap crate) as Hopp.
    assert (1 <= Spec.current_uA cap (- crate)); [|lia].
    unfold Spec.current_uA. apply Z.quot_le_lower_bound; nia. }
  split.
  { intros ->. unfold Spec.current_uA. rewrite Z.mul_0_r. reflexivity. }
  split.
  { intros c Hle. apply current_uA_mono; lia. }
  apply current_uA_opp.
Qed.

Lemma current_follows_direction_witness :
  query POWER_SUPPLY_PROP_CURRENT_NOW
    (sample_state (0, 50000) (0, 12800) (0, 65525) 5000000)
  = Value (-114400).
Proof.
  destruct (current_follows_direction
              (sample_state (0, 50000) (0, 12800) (0, 65525) 5000000)
              65525 eq_refl eq_refl ltac:(cbn; lia))
    as (v & Hq & Hv & _).
  rewrite Hq, Hv. reflexivity.
Defined.

(** ** Bounds of the time estimates *)

Lemma query_of_function_run
    (psp : power_supply_property) (m : M state Z) (st st' : state) (ret : Z) :
  (forall s, max17048_get_property psp s
             = (r <- m ;; if r <? 0 then Ret r else Ret 0) s) ->
  m st = Some (ret, st') -> ret <= 0 ->
  query psp st = (if ret =? 0 then Value (intval st') else Failure ret).
Proof.
  intros Hdef Hm Hle. unfold query.
  apply run_answer_of_run. rewrite Hdef. apply wrapped_run; assumption.
Qed.

Lemma quot_antitone (n a b : Z) :
  0 <= n -> 0 < a <= b -> Z.quot n b <= Z.quot n a.
Proof. intros Hn Hab. apply Z.quot_le_compat_l; lia. Qed.

(** X9: with a positive capacity of at most 100,000,000 uAh, a TimeToEmpty
    value is the smaller of the estimate at the measured discharge rate and
    the estimate at the 300 mA floor rate, so the floor can only shorten the
    estimate; it lies between 0 and 157342 seconds and never decreases when
    the state of charge grows. *)
Theorem time_to_empty_bounded (st : state) (wc ws : Z) :
  regmap (drvdata st) MAX17048_CRATE_REG = (0, wc) ->
  regmap (drvdata st) MAX17048_SOC_REG = (0, ws) ->
  0 <= wc <= 65535 -> 0 <= ws <= 65535 ->
  0 < charge_full_design_uah (drvdata st) <= 100000000 ->
  Spec.c_rate wc < -10 ->
  let cap := charge_full_design_uah (drvdata st) in
  let crate := Spec.c_rate wc in
  let at_rate := fun rate s => Z.quot (225000 * Spec.soc_percent s) (rate * 13) in
  exists v,
    query POWER_SUPPLY_PROP_TIME_TO_EMPTY_NOW st = Value v
    /\ v = Z.min (at_rate (Z.abs crate) ws) (at_rate (144230769 / cap) ws)
    /\ 0 <= v <= 157342
    /\ (forall s, ws <= s ->
        v <= Z.min (at_rate (Z.abs crate) s) (at_rate (144230769 / cap) s)).
Proof.
  intros Ec Es Hwc Hws Hcap Hlt cap crate at_rate.
  fold cap in Hcap. fold crate in Hlt.
  pose proof (c_rate_range wc Hwc) as Hr. fold crate in Hr.
  assert (Hfloor : 1 <= 144230769 / cap)
    by (apply Z.div_le_lower_bound; lia).
  assert (Hmin : forall s,
            at_rate (Z.max (Z.abs crate) (144230769 / cap)) s
            = Z.min (at_rate (Z.abs crate) s) (at_rate (144230769 / cap) s)).
  { intros s. unfold at_rate. pose proof (soc_percent_range s) as Hs.
    destruct (Z.max_spec (Z.abs crate) (144230769 / cap)) as [[Hm ->] | [Hm ->]].
    - pose proof (quot_antitone (225000 * Spec.soc_percent s)
                    (Z.abs crate * 13) (144230769 / cap * 13)
                    ltac:(lia) ltac:(lia)). lia.
    - pose proof (quot_antitone (225000 * Spec.soc_percent s)
                    (144230769 / cap * 13) (Z.abs crate * 13)
                    ltac:(lia) ltac:(lia)). lia. }
  exists (at_rate (Z.max (Z.abs crate) (144230769 / cap)) ws).
  split.
  { rewrite (query_of_function_run POWER_SUPPLY_PROP_TIME_TO_EMPTY_NOW
               max17048_get_time_to_empty _ _ _ (fun _ => eq_refl)
               (max17048_get_time_to_empty_ok st wc ws Ec Es Hwc Hws
                  ltac:(fold cap; lia) Hlt) ltac:(lia)).
    cbn [Z.eqb intval with_intval]. fold cap. fold crate.
    rewrite floored_discharge_rate_max by lia. reflexivity. }
  split; [apply Hmin|].
  assert (Hmono : forall r s1 s2, 0 < r -> s1 <= s2 ->
                    at_rate r s1 <= at_rate r s2).
  { intros r s1 s2 Hr0 Hle. unfold at_rate.
    apply Z.quot_le_mono; [lia|].
    apply Z.mul_le_mono_nonneg_l; [lia|].
    unfold Spec.soc_percent, Spec.clamp_percent.
    assert (Hd : s1 / 256 <= s2 / 256) by (apply Z.div_le_mono; lia).
    destruct (Z.ltb_spec (s1 / 256) 0); destruct (Z.ltb_spec (s2 / 256) 0);
      destruct (Z.gtb_spec (s1 / 256) 100);
      destruct (Z.gtb_spec (s2 / 256) 100); lia. }
  split.
  { rewrite Hmin. pose proof (soc_percent_range ws) as Hs.
    assert (H0 : 0 <= at_rate (144230769 / cap) ws)
      by (unfold at_rate; apply Z.quot_pos; lia).
    assert (H1 : 0 <= at_rate (Z.abs crate) ws <= 157342).
    { unfold at_rate. split; [apply Z.quot_pos; lia|].
      transitivity (Z.quot (225000 * 100) (11 * 13));
        [|vm_compute; discriminate].
      transitivity (Z.quot (225000 * 100) (Z.abs crate * 13)).
      - apply Z.quot_le_mono; lia.
      - apply quot_antitone; lia. }
    lia. }
  intros s Hle. rewrite Hmin.
  pose proof (Hmono (Z.abs crate) ws s ltac:(lia) Hle).
  pose proof (Hmono (144230769 / cap) ws s ltac:(lia) Hle). lia.
Qed.

Lemma time_to_empty_bounded_witness :
  query POWER_SUPPLY_PROP_TIME_TO_EMPTY_NOW
    (sample_state (0, 50000) (0, 12800) (0, 65525) 5000000)
  = Value (Z.min 78671 30906).
Proof.
  destruct (time_to_empty_bounded
              (sample_state (0, 50000) (0, 12800) (0, 65525) 5000000)
              65525 12800 eq_refl eq_refl
              ltac:(lia) ltac:(lia) ltac:(cbn; lia) ltac:(reflexivity))
    as (v & Hq & Hv & _).
  rewrite Hq, Hv. reflexivity.
Defined.

(** X10: a TimeToFull value lies between 0 and 157342 seconds, is 0 when the
    battery is at 100 percent, and never grows when the state of charge or
    the c-rate grows. *)
Theorem time_to_full_bounded (st : state) (wc ws : Z) :
  regmap (drvdata st) MAX17048_CRATE_REG = (0, wc) ->
  regmap (drvdata st) MAX17048_SOC_REG = (0, ws) ->
  0 <= wc <= 65535 -> 0 <= ws <= 65535 ->
  10 < Spec.c_rate wc ->
  let estimate := fun c s =>
    Z.quot (225000 * (100 - Spec.soc_percent s)) (c * 13) in
  query POWER_SUPPLY_PROP_TIME_TO_FULL_NOW st
  = Value (estimate (Spec.c_rate wc) ws)
  /\ 0 <= estimate (Spec.c_rate wc) ws <= 157342
  /\ (25600 <= ws -> estimate (Spec.c_rate wc) ws = 0)
  /\ (forall c s, Spec.c_rate wc <= c -> ws <= s ->
      estimate c s <= estimate (Spec.c_rate wc) ws).
Proof.
  intros Ec Es Hwc Hws Hgt estimate.
  pose proof (c_rate_range wc Hwc) as Hr.
  set (crate := Spec.c_rate wc) in *.
  pose proof (soc_percent_range ws) as Hsoc.
  split.
  { rewrite (query_of_function_run POWER_SUPPLY_PROP_TIME_TO_FULL_NOW
               max17048_get_time_to_full _ _ _ (fun _ => eq_refl)
               (max17048_get_time_to_full_ok st wc ws Ec Es Hwc Hws Hgt)
               ltac:(lia)).
    reflexivity. }
  split.
  { unfold estimate. split; [apply Z.quot_pos; lia|].
    transitivity (Z.quot (225000 * 100) (11 * 13));
      [|vm_compute; discriminate].
    transitivity (Z.quot (225000 * 100) (crate * 13)).
    - apply Z.quot_le_mono; lia.
    - apply quot_antitone; lia. }
  split.
  { intros Hfull. unfold estimate, Spec.soc_percent, Spec.clamp_percent.
    assert (100 <= ws / 256) by (apply Z.div_le_lower_bound; lia).
    destruct (Z.ltb_spec (ws / 256) 0); [lia|].
    destruct (Z.gtb_spec (ws / 256) 100).
    - apply Z.quot_small. lia.
    - replace (ws / 256) with 100 by lia. apply Z.quot_small. lia. }
  intros c s Hc Hs. unfold estimate.
  pose proof (soc_percent_range s) as Hs2.
  assert (Hsm : Spec.soc_percent ws <= Spec.soc_percent s).
  { unfold Spec.soc_percent, Spec.clamp_percent.
    assert (Hd : ws / 256 <= s / 256) by (apply Z.div_le_mono; lia).
    destruct (Z.ltb_spec (ws / 256) 0); destruct (Z.ltb_spec (s / 256) 0);
      destruct (Z.gtb_spec (ws / 256) 100);
      destruct (Z.gtb_spec (s / 256) 100); lia. }
  transitivity (Z.quot (225000 * (100 - Spec.soc_percent s)) (crate * 13)).
  - apply quot_antitone; lia.
  - apply Z.quot_le_mono; lia.
Qed.

Lemma time_to_full_bounded_witness :
  query POWER_SUPPLY_PROP_TIME_TO_FULL_NOW
    (sample_state (0, 50000) (0, 25600) (0, 11) 5000000) = Value 0.
Proof.
  exact (proj1 (time_to_full_bounded
                  (sample_state (0, 50000) (0, 25600) (0, 11) 5000000)
                  11 25600 eq_refl eq_refl
                  ltac:(lia) ltac:(lia) ltac:(reflexivity))).
Defined.

(** ** The probe's return code *)

Lemma IS_ERR_range (code : Z) :
  IS_ERR code = true -> - MAX_ERRNO <= code < 0.
Proof.
  unfold IS_ERR. intros H. apply andb_prop in H. destruct H as [H1 H2].
  apply Z.leb_le in H1. apply Z.ltb_lt in H2. lia.
Qed.

Ltac probe_cases :=
  intros; unfold EIO, ENOMEM, MAX_ERRNO in *;
  try first [ discriminate | lia | reflexivity | repeat split; reflexivity ].

(** X11: the probe always returns, with 0 or a negative errno no smaller
    than -4095.  It returns 0 exactly when the adapter has the SMBus byte
    functionality, the allocation succeeds, the regmap is not an error
    pointer and the power supply registers.  Otherwise the first failure in
    that order decides the code: -EIO, -ENOMEM, the regmap's error, then the
    registration's error. *)
Theorem probe_return_code (client : i2c_client) :
  exists code desc,
    attach client = Some (code, desc)
    /\ - MAX_ERRNO <= code <= 0
    /\ (code = 0 <->
        i2c_check_functionality client = true
        /\ devm_kzalloc_ok client = true
        /\ IS_ERR (regmap_init_err client) = false
        /\ IS_ERR (power_supply_register_err client) = false)
    /\ (i2c_check_functionality client = false -> code = - EIO)
    /\ (i2c_check_functionality client = true ->
        devm_kzalloc_ok client = false -> code = - ENOMEM)
    /\ (i2c_check_functionality client = true ->
        devm_kzalloc_ok client = true ->
        IS_ERR (regmap_init_err client) = true ->
        code = regmap_init_err client)
    /\ (i2c_check_functionality client = true ->
        devm_kzalloc_ok client = true ->
        IS_ERR (regmap_init_err client) = false ->
        IS_ERR (power_supply_register_err client) = true ->
        code = power_supply_register_err client).
Proof.
  assert (Hfin : forall code : Z,
            - MAX_ERRNO <= code <= 0 ->
            (code = 0 ->
             i2c_check_functionality client = true
             /\ devm_kzalloc_ok client = true
             /\ IS_ERR (regmap_init_err client) = false
             /\ IS_ERR (power_supply_register_err client) = false) ->
            (i2c_check_functionality client = false -> code = - EIO) ->
            (i2c_check_functionality client = true ->
             devm_kzalloc_ok client = false -> code = - ENOMEM) ->
            (i2c_check_functionality client = true ->
             devm_kzalloc_ok client = true ->
             IS_ERR (regmap_init_err client) = true ->
             code = regmap_init_err client) ->
            (i2c_check_functionality client = true ->
             devm_kzalloc_ok client = true ->
             IS_ERR (regmap_init_err client) = false ->
             IS_ERR (power_supply_register_err client) = true ->
             code = power_supply_register_err client) ->
            (i2c_check_functionality client = true ->
             devm_kzalloc_ok client = true ->
             IS_ERR (regmap_init_err client) = false ->
             IS_ERR (power_supply_register_err client) = false ->
             code = 0) ->
            forall desc, attach client = Some (code, desc) ->
            exists code desc,
              attach client = Some (code, desc)
              /\ - MAX_ERRNO <= code <= 0
              /\ (code = 0 <->
                  i2c_check_functionality client = true
                  /\ devm_kzalloc_ok client = true
                  /\ IS_ERR (regmap_init_err client) = false
                  /\ IS_ERR (power_supply_register_err client) = false)
              /\ (i2c_check_functionality client = false -> code = - EIO)
              /\ (i2c_check_functionality client = true ->
                  devm_kzalloc_ok client = false -> code = - ENOMEM)
              /\ (i2c_check_functionality client = true ->
                  devm_kzalloc_ok client = true ->
                  IS_ERR (regmap_init_err client) = true ->
                  code = regmap_init_err client)
              /\ (i2c_check_functionality client = true ->
                  devm_kzalloc_ok client = true ->
                  IS_ERR (regmap_init_err client) = false ->
                  IS_ERR (power_supply_register_err client) = true ->
                  code = power_supply_register_err client)).
  { intros code Hrange Hzero H1 H2 H3 H4 H5 desc Hrun.
    exists code, desc. split; [exact Hrun|]. split; [exact Hrange|].
    split; [|tauto].
    split; [exact Hzero|]. intros (Ha & Hb & Hc & Hd). auto. }
  destruct (i2c_check_functionality client) eqn:Hi.
  - destruct (devm_kzalloc_ok client) eqn:Hk.
    + pose proof (attach_run client Hi Hk) as Hrun. cbv zeta in Hrun.
      unfold probe_code in Hrun.
      destruct (IS_ERR (regmap_init_err client)) eqn:Hr.
      * pose proof (IS_ERR_range _ Hr).
        refine (Hfin (regmap_init_err client) _ _ _ _ _ _ _ _ Hrun);
          probe_cases.
      * destruct (IS_ERR (power_supply_register_err client)) eqn:Hp.
        -- pose proof (IS_ERR_range _ Hp).
           refine (Hfin (power_supply_register_err client)
                     _ _ _ _ _ _ _ _ Hrun);
             probe_cases.
        -- refine (Hfin 0 _ _ _ _ _ _ _ _ Hrun); probe_cases.
    + refine (Hfin (- ENOMEM) _ _ _ _ _ _ _ kzalloc_max17048 _);
        probe_cases.
      unfold attach, max17048_probe. rewrite Hi, Hk. reflexivity.
  - refine (Hfin (- EIO) _ _ _ _ _ _ _ kzalloc_max17048 _); probe_cases.
    unfold attach, max17048_probe. rewrite Hi. reflexivity.
Qed.

(** ** The registers as numbers *)

Lemma s16_range (z : Z) : -32768 <= s16 z <= 32767.
Proof.
  unfold s16, to_signed.
  change (2 ^ (16 - 1)) with 32768. change (2 ^ 16) with 65536.
  pose proof (Z.mod_pos_bound (z + 32768) 65536 ltac:(lia)). lia.
Qed.

Lemma s16_mod (z : Z) : s16 z mod 65536 = z mod 65536.
Proof.
  unfold s16, to_signed.
  change (2 ^ (16 - 1)) with 32768. change (2 ^ 16) with 65536.
  rewrite Zminus_mod_idemp_l. f_equal. lia.
Qed.

Lemma u32_mod_65536 (z : Z) : u32 z mod 65536 = z mod 65536.
Proof.
  unfold u32, to_unsigned.
  apply Z.mod_mod_divide. exists 65536. reflexivity.
Qed.

(** X12: the c-rate is the register word read as a 16-bit two's-complement
    number.  It lies in [-32768, 32767] and reducing it modulo 65536 gives
    back the low 16 bits of the word the bus delivered, so two 16-bit words
    giving the same rate are equal; it is negative exactly for words from
    0x8000 on.  On a failed read the caller's variable is left as it was. *)
Theorem crate_is_twos_complement (st : state) (out : Z) (crate_rd : reading) :
  regmap (drvdata st) MAX17048_CRATE_REG = crate_rd ->
  exists ret crate,
    max17048_get_crate out st
    = Some ((ret, crate), logged MAX17048_CRATE_REG (fst crate_rd) st)
    /\ (fst crate_rd <> 0 -> ret = fst crate_rd /\ crate = out)
    /\ (fst crate_rd = 0 ->
        ret = 0
        /\ -32768 <= crate <= 32767
        /\ crate mod 65536 = snd crate_rd mod 65536
        /\ (0 <= snd crate_rd <= 65535 ->
            crate mod 65536 = snd crate_rd
            /\ (crate < 0 <-> 32768 <= snd crate_rd)
            /\ (forall w, 0 <= w <= 65535 -> s16 w = crate ->
                w = snd crate_rd))).
Proof.
  destruct crate_rd as [rc wc]. intros Ec. cbn [fst snd].
  destruct (Z.eq_dec rc 0) as [-> | Hne].
  - exists 0, (s16 (u32 wc)). split.
    { unfold max17048_get_crate, Bind.
      rewrite (regmap_read_ok _ _ _ _ Ec). reflexivity. }
    split; [intros H; contradiction|]. intros _.
    split; [reflexivity|]. split; [apply s16_range|].
    assert (Hmod : s16 (u32 wc) mod 65536 = wc mod 65536)
      by (rewrite s16_mod; apply u32_mod_65536).
    split; [exact Hmod|]. intros Hw.
    rewrite (Z.mod_small wc 65536) in Hmod by lia.
    split; [exact Hmod|].
    rewrite (u32_small wc) in * by lia.
    rewrite (s16_c_rate wc Hw) in *.
    split.
    + unfold Spec.c_rate. destruct (Z.ltb_spec wc 32768); lia.
    + intros w Hwr Heq.
      pose proof (s16_mod w) as Hm. rewrite Heq, Hmod in Hm.
      rewrite (Z.mod_small w 65536) in Hm by lia. lia.
  - exists rc, out. split.
    { apply (max17048_get_crate_err st out rc wc Ec Hne). }
    split; [intros _; split; reflexivity|]. intros H. contradiction.
Qed.

Lemma crate_is_twos_complement_witness :
  exists ret crate,
    max17048_get_crate 0
      (sample_state (0, 50000) (0, 12800) (0, 65525) 5000000)
    = Some ((ret, crate),
            logged MAX17048_CRATE_REG 0
              (sample_state (0, 50000) (0, 12800) (0, 65525) 5000000))
    /\ crate mod 65536 = 65525.
Proof.
  destruct (crate_is_twos_complement
              (sample_state (0, 50000) (0, 12800) (0, 65525) 5000000)
              0 (0, 65525) eq_refl)
    as (ret & crate & Hrun & _ & Hok).
  exists ret, crate. split; [exact Hrun|].
  exact (proj1 (proj2 (proj2 (Hok eq_refl)))).
Defined.

(** X13: the voltage identifies the register.  A larger VCELL value gives a
    strictly larger voltage, each step being 78 or 79 uV; the register is
    recovered from the voltage as (uV * 8 + 624) / 625; and the voltage
    never exceeds 5,119,921 uV. *)
Theorem voltage_identifies_register (st : state) (v : Z) :
  regmap (drvdata st) MAX17048_VCELL_REG = (0, v) ->
  0 <= v <= 65535 ->
  query POWER_SUPPLY_PROP_VOLTAGE_NOW st = Value (Spec.voltage_uV v)
  /\ Spec.voltage_uV v <= 5119921
  /\ (Spec.voltage_uV v * 8 + 624) / 625 = v
  /\ 78 <= Spec.voltage_uV (v + 1) - Spec.voltage_uV v <= 79
  /\ (forall v', v < v' -> Spec.voltage_uV v < Spec.voltage_uV v').
Proof.
  intros Ev Hv.
  split.
  { unfold query, run_answer. rewrite (query_voltage_now st v Ev Hv).
    reflexivity. }
  unfold Spec.voltage_uV.
  pose proof (Z.div_mod (v * 625) 8 ltac:(lia)) as Hdm.
  pose proof (Z.mod_pos_bound (v * 625) 8 ltac:(lia)) as Hm.
  split; [lia|].
  split.
  { symmetry. apply (Z.div_unique _ 625 v (v * 625 / 8 * 8 + 624 - 625 * v));
      lia. }
  split.
  { pose proof (Z.div_mod ((v + 1) * 625) 8 ltac:(lia)) as Hdm1.
    pose proof (Z.mod_pos_bound ((v + 1) * 625) 8 ltac:(lia)) as Hm1.
    lia. }
  intros v' Hlt.
  pose proof (Z.div_mod (v' * 625) 8 ltac:(lia)) as Hdm'.
  pose proof (Z.mod_pos_bound (v' * 625) 8 ltac:(lia)) as Hm'.
  lia.
Qed.

Lemma voltage_identifies_register_witness :
  query POWER_SUPPLY_PROP_VOLTAGE_NOW
    (sample_state (0, 50000) (0, 12800) (0, 0) 5000000) = Value 3906250
  /\ (3906250 * 8 + 624) / 625 = 50000.
Proof.
  pose proof (voltage_identifies_register
                (sample_state (0, 50000) (0, 12800) (0, 0) 5000000)
                50000 eq_refl ltac:(lia)) as (Hq & _ & Hinv & _).
  split; [exact Hq | exact Hinv].
Defined.

(** X14: the state of charge is the high byte of the SOC register, the low
    byte being ignored, cut off at 100: it is the high byte itself below
    100, it is 100 exactly for registers from 25600 on and 0 exactly for
    registers below 256, and it never decreases when the register grows. *)
Theorem soc_is_saturated_high_byte (st : state) (s : Z) :
  regmap (drvdata st) MAX17048_SOC_REG = (0, s) ->
  0 <= s <= 65535 ->
  let soc := Spec.soc_percent s in
  query POWER_SUPPLY_PROP_CAPACITY st = Value soc
  /\ soc = Z.min 100 (s / 256)
  /\ Spec.soc_percent (s - s mod 256) = soc
  /\ (soc = 100 <-> 25600 <= s)
  /\ (soc = 0 <-> s < 256)
  /\ (forall s', s <= s' -> soc <= Spec.soc_percent s').
Proof.
  intros Es Hs soc.
  split.
  { unfold query, run_answer. rewrite (query_capacity st s Es Hs).
    reflexivity. }
  pose proof (Z.div_mod s 256 ltac:(lia)) as Hdm.
  pose proof (Z.mod_pos_bound s 256 ltac:(lia)) as Hm.
  assert (Hq : 0 <= s / 256) by (apply Z.div_pos; lia).
  assert (Hsoc : soc = Z.min 100 (s / 256)).
  { subst soc. unfold Spec.soc_percent, Spec.clamp_percent.
    destruct (Z.ltb_spec (s / 256) 0); [lia|].
    destruct (Z.gtb_spec (s / 256) 100); lia. }
  split; [exact Hsoc|].
  split.
  { subst soc. unfold Spec.soc_percent. f_equal.
    replace (s - s mod 256) with (s / 256 * 256) by lia.
    apply Z.div_mul. lia. }
  split; [rewrite Hsoc; lia|].
  split; [rewrite Hsoc; lia|].
  intros s' Hle. rewrite Hsoc.
  assert (Hd : s / 256 <= s' / 256) by (apply Z.div_le_mono; lia).
  unfold Spec.soc_percent, Spec.clamp_percent.
  destruct (Z.ltb_spec (s' / 256) 0); [lia|].
  destruct (Z.gtb_spec (s' / 256) 100); lia.
Qed.

Lemma soc_is_saturated_high_byte_witness :
  query POWER_SUPPLY_PROP_CAPACITY
    (sample_state (0, 50000) (0, 25600) (0, 0) 5000000) = Value 100.
Proof.
  exact (proj1 (soc_is_saturated_high_byte
                  (sample_state (0, 50000) (0, 25600) (0, 0) 5000000)
                  25600 eq_refl ltac:(lia))).
Defined.
